(** * typed_argparse: dataclass fields translated to argparse flags

    A shallow embedding of [src/typed_argparse.py]: the class method
    [TypedNamespace.get_parser], which walks [dataclasses.fields(cls)] and
    issues one [add_argument] call per field, the class method
    [TypedNamespace.get_parser_grouped_by_parents], and
    [TypedArgumentParser.parse_args].

    The argparse engine is a library outside the module.  A parser is
    represented by what the module asks of it: the arguments of its
    constructor and the [add_argument] / [add_argument_group] calls made on
    it, in call order.  What argparse refuses of these calls (a keyword
    argument that the action class does not take, an attribute name that
    cannot be derived, an option string that is already taken) is part of
    the model; how it renders help is not. *)

From stdpp Require Import gmap strings list fin_maps pretty.
From Stdlib Require Import ZArith Ascii String.

Set Warnings "-register-all".

Local Open Scope string_scope.
Local Open Scope list_scope.

(** ** Python values *)

(** The values a field default, a default factory or a metadata entry can
    hold.  [VRequiredArg] is the class object [REQUIRED_ARG] itself (the
    source compares with [is]), [VMissing] the [dataclasses.MISSING]
    sentinel, [VObject shown] any other object, known by its [str()]. *)
Inductive py_value : Type :=
  | VNone
  | VBool (b : bool)
  | VInt (z : Z)
  | VStr (s : string)
  | VList (items : list py_value)
  | VRequiredArg
  | VMissing
  | VObject (shown : string).

(** [", ".join(xs)] *)
Fixpoint join_comma (xs : list string) : string :=
  match xs with
  | [] => ""
  | [x] => x
  | x :: rest => x +:+ ", " +:+ join_comma rest
  end.

(** [repr] of a string, as CPython's [unicode_repr] writes it: double
    quotes when the string holds a single quote and no double one, single
    quotes otherwise; the backslash and the chosen quote are escaped, tab,
    newline and carriage return are written [\t], [\n], [\r], and any other
    control character as [\xhh].  A string is the UTF-8 text of printable
    characters: bytes above 127 are left as they are. *)
Definition double_quote : ascii := "034"%char.
Definition single_quote : ascii := "039"%char.
Definition backslash : ascii := "092"%char.

Fixpoint contains_char (c : ascii) (s : string) : bool :=
  match s with
  | EmptyString => false
  | String c' rest => Ascii.eqb c c' || contains_char c rest
  end.

Definition hex_digit (n : nat) : ascii :=
  match n with
  | 0 => "0" | 1 => "1" | 2 => "2" | 3 => "3" | 4 => "4" | 5 => "5"
  | 6 => "6" | 7 => "7" | 8 => "8" | 9 => "9" | 10 => "a" | 11 => "b"
  | 12 => "c" | 13 => "d" | 14 => "e" | _ => "f"
  end%char.

Definition escape_char (quote c : ascii) : string :=
  let n := nat_of_ascii c in
  if Ascii.eqb c backslash then String backslash (String backslash "")
  else if Ascii.eqb c quote then String backslash (String quote "")
  else if Nat.eqb n 9 then String backslash "t"
  else if Nat.eqb n 10 then String backslash "n"
  else if Nat.eqb n 13 then String backslash "r"
  else if Nat.ltb n 32 || Nat.eqb n 127
       then String backslash
              (String "x" (String (hex_digit (Nat.div n 16))
                             (String (hex_digit (Nat.modulo n 16)) "")))
       else String c "".

Fixpoint escape_chars (quote : ascii) (s : string) : string :=
  match s with
  | EmptyString => ""
  | String c rest => escape_char quote c +:+ escape_chars quote rest
  end.

Definition repr_string (s : string) : string :=
  let quote :=
    if contains_char single_quote s && negb (contains_char double_quote s)
    then double_quote else single_quote in
  String quote (escape_chars quote s +:+ String quote "").

(** The address CPython prints for the [MISSING] sentinel depends on the
    run; this is the one of the run considered.  No property below reads
    it. *)
Definition MISSING_address : string := "0x7f3a5c1d2e90".

(** [repr(v)]; for the values here [str(v)] differs for a string only. *)
Fixpoint py_repr (v : py_value) : string :=
  match v with
  | VNone => "None"
  | VBool true => "True"
  | VBool false => "False"
  | VInt z => pretty z
  | VStr s => repr_string s
  | VList items => "[" +:+ join_comma (map py_repr items) +:+ "]"
  | VRequiredArg => "<class 'typed_argparse.REQUIRED_ARG'>"
  | VMissing =>
      "<dataclasses._MISSING_TYPE object at " +:+ MISSING_address +:+ ">"
  | VObject shown => shown
  end.

(** [str(v)], which is also what an f-string field [{v}] renders. *)
Definition py_str (v : py_value) : string :=
  match v with
  | VStr s => s
  | _ => py_repr v
  end.

(** [isinstance(v, bool)] *)
Definition is_bool (v : py_value) : bool :=
  match v with VBool _ => true | _ => false end.

(** [v is REQUIRED_ARG] *)
Definition is_required_arg (v : py_value) : bool :=
  match v with VRequiredArg => true | _ => false end.

(** ** Declared types *)

(** What [get_origin] can answer for a subscripted type. *)
Inductive origin : Type :=
  | OClassVar                   (* typing.ClassVar *)
  | Olist                       (* builtins.list *)
  | ONonEmptyList               (* the module's NonEmptyList *)
  | OList                       (* typing.List, seen on old interpreters *)
  | OOther (name : string).     (* dict, tuple, Union, ... *)

(** A declared field type: a plain class, for which [get_origin] answers
    [None]; a type with an origin (a subscripted type such as [List[int]],
    or a bare alias such as [List]) and its arguments; or an annotation
    kept as text (a string annotation, as under
    [from __future__ import annotations], or a forward reference among the
    arguments), for which [get_origin] answers [None] as well. *)
Inductive py_type : Type :=
  | TClass (name : string)
  | TSub (o : origin) (args : list py_type)
  | TRef (annotation : string).

Definition get_origin (t : py_type) : option origin :=
  match t with
  | TClass _ => None
  | TSub o _ => Some o
  | TRef _ => None
  end.

Definition get_args (t : py_type) : list py_type :=
  match t with
  | TClass _ => []
  | TSub _ args => args
  | TRef _ => []
  end.

(** [callable(t)]: classes and subscripted types are, text is not. *)
Definition is_callable (t : py_type) : bool :=
  match t with
  | TRef _ => false
  | _ => true
  end.

Definition is_ClassVar (o : option origin) : bool :=
  match o with Some OClassVar => true | _ => false end.

(** [type_origin is list or type_origin is NonEmptyList or type_origin is List] *)
Definition is_list_origin (o : origin) : bool :=
  match o with
  | Olist | ONonEmptyList | OList => true
  | _ => false
  end.

Definition is_NonEmptyList (o : origin) : bool :=
  match o with ONonEmptyList => true | _ => false end.

(** ** Exceptions and results *)

(** The payload of [NotImplementedError] is the declared type (line 181) or
    its origin (line 186). *)
Inductive ni_payload : Type :=
  | OfType (t : py_type)
  | OfOrigin (o : origin).

Inductive exn : Type :=
  | TypeError
  | ValueError
  | NotImplementedError (payload : ni_payload)
  | KeyError (key : string)
  | ArgumentError               (* argparse.ArgumentError *)
  | OtherError (name : string).

Inductive result (A : Type) : Type :=
  | Ok (a : A)
  | Raise (e : exn).
Arguments Ok {A} a.
Arguments Raise {A} e.

Definition bind {A B : Type} (r : result A) (k : A -> result B) : result B :=
  match r with
  | Ok a => k a
  | Raise e => Raise e
  end.

Notation "'let?' x ':=' r 'in' k" := (bind r (fun x => k))
  (at level 10, x name, r at level 100, k at level 200).

(** ** Fields *)

(** The outcome of calling a zero-argument callable. *)
Inductive call_outcome : Type :=
  | Returns (v : py_value)
  | Raises (e : exn).

(** [field.default_factory] is [MISSING] when the field has no factory;
    otherwise it is a callable, described by what calling it with no
    argument does (a factory of the wrong arity raises [TypeError]). *)
Inductive factory : Type :=
  | NoFactory
  | Factory (outcome : call_outcome).

Record Field : Type := mkField {
  name : string;
  type : py_type;
  default : py_value;               (* MISSING when none is declared *)
  default_factory : factory;
  metadata : gmap string py_value
}.

(** [field.default_factory()]: calling the [MISSING] sentinel raises
    [TypeError], since it is not callable. *)
Definition call_default_factory (f : Field) : call_outcome :=
  match default_factory f with
  | NoFactory => Raises TypeError
  | Factory outcome => outcome
  end.

(** Lines 160-163:
<<
    try:
        default = field.default_factory()
    except TypeError:
        default = field.default
>> *)
Definition resolve_default (f : Field) : result py_value :=
  match call_default_factory f with
  | Returns v => Ok v
  | Raises TypeError => Ok (default f)
  | Raises e => Raise e
  end.

(** ** Keyword arguments of [add_argument] *)

Inductive kw_value : Type :=
  | KStr (s : string)
  | KType (t : py_type)
  | KBool (b : bool).

(** [kwargs.get('help', '')] inside the f-string of line 194; the entry, when
    present, is the string stored on line 168. *)
Definition kwargs_get_help (kwargs : gmap string kw_value) : string :=
  match kwargs !! "help" with
  | Some (KStr s) => s
  | _ => ""
  end.

(** [kwargs.pop("type")] *)
Definition kwargs_pop (key : string) (kwargs : gmap string kw_value)
  : result (gmap string kw_value) :=
  match kwargs !! key with
  | Some _ => Ok (delete key kwargs)
  | None => Raise (KeyError key)
  end.

(** Lines 165-172: the help text and the metavar, read from the metadata
    through [str], and kept only when the string is not empty. *)
Definition metadata_str (f : Field) (key : string) : string :=
  py_str (from_option id (VStr "") (metadata f !! key)).

Definition set_if_nonempty (key s : string) (kwargs : gmap string kw_value)
  : gmap string kw_value :=
  if String.eqb s "" then kwargs else <[key := KStr s]> kwargs.

Definition metadata_kwargs (f : Field) : gmap string kw_value :=
  let kwargs : gmap string kw_value := ∅ in
  let help_comment := metadata_str f "help" in
  let kwargs := set_if_nonempty "help" help_comment kwargs in
  let metavar := metadata_str f "metavar" in
  set_if_nonempty "metavar" metavar kwargs.

(** Lines 174-186: the value type and the arity, from the declared type. *)
Definition type_kwargs (arg_type : py_type) (kwargs : gmap string kw_value)
  : result (gmap string kw_value) :=
  match get_origin arg_type with
  | None => Ok (<["type" := KType arg_type]> kwargs)
  | Some type_origin =>
      if is_list_origin type_origin then
        match get_args arg_type with
        | [inner] =>
            let kwargs := <["type" := KType inner]> kwargs in
            Ok (<["nargs" := KStr (if is_NonEmptyList type_origin
                                   then "+" else "*")]> kwargs)
        | _ => Raise (NotImplementedError (OfType arg_type))
        end
      else Raise (NotImplementedError (OfOrigin type_origin))
  end.

(** Lines 188-194: requiredness, toggle or default text, from the resolved
    default. *)
Definition default_kwargs (dflt : py_value) (kwargs : gmap string kw_value)
  : result (gmap string kw_value) :=
  if is_required_arg dflt then
    Ok (<["required" := KBool true]> kwargs)
  else
    match dflt with
    | VBool b =>
        let kwargs :=
          <["action" := KStr (if b then "store_false" else "store_true")]>
            kwargs in
        kwargs_pop "type" kwargs
    | _ =>
        Ok (<["help" := KStr (kwargs_get_help kwargs +:+ " default: "
                              +:+ py_str dflt)]> kwargs)
    end.

(** One [add_argument] call: the option strings and the keyword arguments. *)
Record Argument : Type := mkArgument {
  option_strings : list string;
  kwargs_of : gmap string kw_value
}.

(** The call of lines 151 (and 218):
    [add_argument("-h", "--help", action="help", help="show this ...")]. *)
Definition help_argument : Argument :=
  mkArgument ["-h"; "--help"]
    (<["help" := KStr "show this help message and exit"]>
       (<["action" := KStr "help"]> ∅)).

(** [arg in ("h", "help")] *)
Definition is_help_alias (arg : string) : bool :=
  String.eqb arg "h" || String.eqb arg "help".

(** ** What [add_argument] refuses

    [add_argument] is argparse's, and it can refuse a call of the module in
    four places, in this order: when it derives the attribute name from the
    option strings ([_get_optional_kwargs]), when it builds the action
    object, whose class takes only some keyword arguments, when it finds
    that the value type of the action is not callable, and when it finds an
    option string that the parser already has ([_check_conflict]). *)

(** [s.lstrip("-")] *)
Fixpoint lstrip_dash (s : string) : string :=
  match s with
  | EmptyString => EmptyString
  | String c rest => if Ascii.eqb c "-" then lstrip_dash rest else s
  end.

Definition starts_with_dash (s : string) : bool :=
  match s with
  | String c _ => Ascii.eqb c "-"
  | EmptyString => false
  end.

Definition is_long_option (s : string) : bool :=
  match s with
  | String _ (String c _) => Ascii.eqb c "-"
  | _ => false
  end.

(** [_get_optional_kwargs]: every option string starts with the prefix
    character, and the first long one (or else the first one) without its
    leading dashes names the attribute; an empty name is refused. *)
Definition check_option_strings (names : list string) : result unit :=
  match names with
  | [] => Raise TypeError
  | first :: _ =>
      if forallb starts_with_dash names then
        let chosen :=
          match List.filter is_long_option names with
          | long :: _ => long
          | [] => first
          end in
        if String.eqb (lstrip_dash chosen) "" then Raise ValueError
        else Ok tt
      else Raise ValueError
  end.

(** The keyword arguments that the action class of an [action] keyword
    takes besides [option_strings]: [_StoreAction] when there is none,
    [_StoreTrueAction], [_StoreFalseAction] and [_HelpAction].  The module
    passes no other action. *)
Definition accepted_keywords (action : option kw_value)
  : option (list string) :=
  match action with
  | None | Some (KStr "store") =>
      Some ["dest"; "nargs"; "const"; "default"; "type"; "choices";
            "required"; "help"; "metavar"]
  | Some (KStr "store_true") | Some (KStr "store_false") =>
      Some ["dest"; "default"; "required"; "help"]
  | Some (KStr "help") => Some ["dest"; "default"; "help"]
  | Some _ => None
  end.

(** The call of the action class with the keyword arguments: one that
    the class does not take is a [TypeError]. *)
Definition check_keywords (kwargs : gmap string kw_value) : result unit :=
  match accepted_keywords (kwargs !! "action") with
  | None => Raise ValueError
  | Some accepted =>
      if bool_decide (dom (delete "action" kwargs)
                      ⊆ (list_to_set accepted : gset string))
      then Ok tt
      else Raise TypeError
  end.

(** The value type of the action (none for an action built without the
    [type] keyword, which converts nothing) has to be callable. *)
Definition check_value_type (kwargs : gmap string kw_value) : result unit :=
  match kwargs !! "type" with
  | None => Ok tt
  | Some (KType t) => if is_callable t then Ok tt else Raise ValueError
  | Some _ => Raise ValueError
  end.

(** The part of [add_argument] that does not look at the parser: the
    action object is built, or the call is refused. *)
Definition create_action (a : Argument) : result Argument :=
  let? _ := check_option_strings (option_strings a) in
  let? _ := check_keywords (kwargs_of a) in
  let? _ := check_value_type (kwargs_of a) in
  Ok a.

(** [_add_action] with [_check_conflict]: an option string that the parser
    already has is an [ArgumentError]; otherwise the option strings of the
    action are the parser's from now on.  [taken] are the option strings of
    the parser. *)
Definition check_conflict (taken : list string) (a : Argument)
  : result (list string) :=
  if existsb (fun s => existsb (String.eqb s) taken) (option_strings a)
  then Raise ArgumentError
  else Ok (taken ++ option_strings a).

Fixpoint add_actions (taken : list string) (actions : list Argument)
  : result (list string) :=
  match actions with
  | [] => Ok taken
  | a :: rest =>
      let? taken := check_conflict taken a in
      add_actions taken rest
  end.

(** The body of the loop of lines 148-196 for one field, up to the conflict
    check of its [add_argument] call: the actions built for [group] (none,
    or one), or the exception that leaves the loop. *)
Definition translate_field (f : Field) : result (list Argument) :=
  let arg := name f in
  if is_help_alias arg then
    let? action := create_action help_argument in
    Ok [action]
  else
    let arg_type := type f in
    let type_origin := get_origin arg_type in
    if is_ClassVar type_origin then Ok []
    else
      let? dflt := resolve_default f in
      let kwargs := metadata_kwargs f in
      let? kwargs := type_kwargs arg_type kwargs in
      let? kwargs := default_kwargs dflt kwargs in
      let? action := create_action (mkArgument ["--" +:+ arg] kwargs) in
      Ok [action].

(** The loop: fields in declaration order, the actions accumulated on
    [group], each one checked against the option strings [taken] in the
    parser. *)
Fixpoint translate_fields (fs : list Field) (taken : list string)
    (group : list Argument) : result (list Argument) :=
  match fs with
  | [] => Ok group
  | f :: rest =>
      let? added := translate_field f in
      let? taken := add_actions taken added in
      translate_fields rest taken (group ++ added)
  end.

Definition ex_a : Field := mkField "a" (TClass "int") (VInt 1) NoFactory ∅.
Definition ex_c : Field :=
  mkField "c" (TSub ONonEmptyList [TClass "int"]) VMissing
    (Factory (Returns (VList [VInt 1])))
    (<["help" := VStr "help for c."]> ∅).
Definition ex_b : Field := mkField "b" (TClass "bool") (VBool false) NoFactory ∅.
Definition ex_d : Field :=
  mkField "d" (TClass "str") VRequiredArg NoFactory
    (<["metavar" := VStr "REQ_D"]> ∅).

(** ** Classes *)

(** A class, as far as the module inspects one: [__name__], [__bases__] and
    [dataclasses.fields(cls)].  [TypedNamespaceClass] is the module's own
    [TypedNamespace]; a [UserClass] carries the field list that
    [dataclasses.fields] reports for it (inherited fields included). *)
Inductive PyClass : Type :=
  | ObjectClass
  | TypedNamespaceClass
  | UserClass (cname : string) (bases : list PyClass) (fields : list Field).

Definition class_name (c : PyClass) : string :=
  match c with
  | ObjectClass => "object"
  | TypedNamespaceClass => "TypedNamespace"
  | UserClass cname _ _ => cname
  end.

Definition class_bases (c : PyClass) : list PyClass :=
  match c with
  | ObjectClass => []
  | TypedNamespaceClass => [ObjectClass]
  | UserClass _ bases _ => bases
  end.

(** [dataclasses.fields(cls)]; [TypedNamespace] declares none.  [get_parser]
    is a class method of [TypedNamespace], so it never runs on [object]. *)
Definition dataclasses_fields (c : PyClass) : list Field :=
  match c with
  | ObjectClass => []
  | TypedNamespaceClass => []
  | UserClass _ _ fields => fields
  end.

(** [issubclass(c, TypedNamespace)] *)
Fixpoint issubclass_TypedNamespace (c : PyClass) : bool :=
  match c with
  | ObjectClass => false
  | TypedNamespaceClass => true
  | UserClass _ bases _ =>
      (fix any (cs : list PyClass) : bool :=
         match cs with
         | [] => false
         | b :: rest => issubclass_TypedNamespace b || any rest
         end) bases
  end.

(** ** Parsers *)

(** A [TypedArgumentParser]: the constructor's [name_space_class], [add_help]
    and [parents], the arguments added on the parser itself, and the groups
    made by [add_argument_group] with the arguments added on each. *)
Inductive Parser : Type :=
  mkParser (name_space_class : PyClass) (add_help : bool)
           (parents : list Parser)
           (own_arguments : list Argument)
           (argument_groups : list (string * list Argument)).

Definition name_space_class (p : Parser) : PyClass :=
  match p with mkParser c _ _ _ _ => c end.
Definition add_help (p : Parser) : bool :=
  match p with mkParser _ h _ _ _ => h end.
Definition parents (p : Parser) : list Parser :=
  match p with mkParser _ _ ps _ _ => ps end.
Definition own_arguments (p : Parser) : list Argument :=
  match p with mkParser _ _ _ own _ => own end.
Definition argument_groups (p : Parser) : list (string * list Argument) :=
  match p with mkParser _ _ _ _ gs => gs end.

(** The option strings of a new parser: those of the automatic help flag
    when the constructor is given [add_help=True]. *)
Definition initial_option_strings (add_help : bool) : list string :=
  if add_help then option_strings help_argument else [].

(** Lines 139-198. *)
Definition get_parser (cls : PyClass) (group_title : option string)
    (add_help : bool) : result Parser :=
  let? added :=
    translate_fields (dataclasses_fields cls)
      (initial_option_strings add_help) [] in
  Ok (match group_title with
      | None => mkParser cls add_help [] added []
      | Some t => mkParser cls add_help [] [] [(t, added)]
      end).

(** [s.startswith(p)] *)
Fixpoint startswith (p s : string) : bool :=
  match p, s with
  | EmptyString, _ => true
  | String a p', String b s' => Ascii.eqb a b && startswith p' s'
  | String _ _, EmptyString => false
  end.

(** [s.replace(old, new)] for a non-empty [old]: occurrences are found left
    to right and do not overlap.  [skip] counts the characters of the
    current occurrence still to be dropped. *)
Fixpoint replace_from (old new : string) (skip : nat) (s : string) : string :=
  match s with
  | EmptyString => EmptyString
  | String c rest =>
      match skip with
      | S k => replace_from old new k rest
      | O =>
          if startswith old s
          then new +:+ replace_from old new (String.length old - 1) rest
          else String c (replace_from old new 0 rest)
      end
  end.

Definition py_replace (old new s : string) : string :=
  replace_from old new 0 s.

(** The default of [parent_name_to_group_name], line 204. *)
Definition default_group_name (pname : string) : string :=
  py_replace "Args" "" (py_replace "Namespace" "" pname).

(** A list comprehension whose element expression can raise. *)
Fixpoint map_result {A B : Type} (g : A -> result B) (xs : list A)
  : result (list B) :=
  match xs with
  | [] => Ok []
  | x :: rest =>
      let? y := g x in
      let? ys := map_result g rest in
      Ok (y :: ys)
  end.

(** Lines 208-210. *)
Definition parent_name_space_classes (cls : PyClass) : list PyClass :=
  List.filter issubclass_TypedNamespace (class_bases cls).

(** Every [add_argument] call a parser holds: the automatic help flag of the
    constructor when [add_help] is set, what the constructor copies from the
    [parents], and the calls made afterwards. *)
Fixpoint parser_arguments (p : Parser) : list Argument :=
  match p with
  | mkParser _ add_help parents own groups =>
      (if add_help then [help_argument] else [])
      ++ (fix collect (ps : list Parser) : list Argument :=
            match ps with
            | [] => []
            | q :: rest => parser_arguments q ++ collect rest
            end) parents
      ++ own
      ++ flat_map snd groups
  end.

(** Lines 201-220.  The constructor adds the actions of the [parents] one
    by one, and checks each for a conflict as [add_argument] does; then the
    help flag is added on its own group. *)
Definition get_parser_grouped_by_parents (cls : PyClass) (add_help : bool)
    (parent_name_to_group_name : string -> string) : result Parser :=
  let? parent_parsers :=
    map_result
      (fun parent =>
         get_parser parent
           (Some (parent_name_to_group_name (class_name parent))) false)
      (parent_name_space_classes cls) in
  let? taken := add_actions [] (flat_map parser_arguments parent_parsers) in
  let? groups :=
    if add_help then
      let? action := create_action help_argument in
      let? _ := check_conflict taken action in
      Ok [("Help", [action])]
    else Ok [] in
  Ok (mkParser cls false parent_parsers [] groups).


Definition ArgsA : PyClass :=
  UserClass "ArgsA" [TypedNamespaceClass] [ex_a; ex_c].
Definition ArgsB : PyClass :=
  UserClass "ArgsB" [TypedNamespaceClass] [ex_b; ex_d].
Definition Args : PyClass :=
  UserClass "Args" [ArgsA; ArgsB] [ex_b; ex_d; ex_a; ex_c].

(** ** Instances and parsing *)

(** The parsing of argparse and the dataclass constructor are libraries, not
    part of the module's sources.  What the module needs of the parsing is
    taken from the specification, in the definitions below that say so; the
    constructor of the record type is a parameter of [parse_args]. *)

(** An instance of a record class: its class and its attributes. *)
Record Instance : Type := mkInstance {
  instance_class : PyClass;
  attributes : gmap string py_value
}.

(** Modelled from the spec: how a parse by the engine ends, with the
    populated instance, or with the process exit the engine performs after
    a usage error or a help request. *)
Inductive parse_outcome : Type :=
  | Parsed (namespace : Instance)
  | UsageError (message : string)
  | HelpExit.

(** Modelled from the spec: the action kinds of the engine that the module
    asks for (the [action] keyword; a flag without one stores its value). *)
Inductive action_kind : Type :=
  | Store | StoreTrue | StoreFalse | Help | UnknownAction (a : kw_value).

(** Modelled from the spec: the engine's reading of the [action] keyword. *)
Definition kind_of (a : Argument) : action_kind :=
  match kwargs_of a !! "action" with
  | None => Store
  | Some (KStr "store_true") => StoreTrue
  | Some (KStr "store_false") => StoreFalse
  | Some (KStr "help") => Help
  | Some other => UnknownAction other
  end.

(** Modelled from the spec: the engine names the attribute a flag writes
    after its long option string, without the long-option marker (field
    names are identifiers, so nothing else needs rewriting). *)
Definition strip_marker (opt : string) : string :=
  if startswith "--" opt then String.substring 2 (String.length opt - 2) opt
  else if startswith "-" opt then String.substring 1 (String.length opt - 1) opt
  else opt.

(** Modelled from the spec: the attribute of the instance that the engine
    writes for a flag. *)
Definition dest_of (a : Argument) : string :=
  match List.filter (startswith "--") (option_strings a) with
  | long :: _ => strip_marker long
  | [] => match option_strings a with
          | short :: _ => strip_marker short
          | [] => ""
          end
  end.

(** Modelled from the spec: the engine's reading of the [required] keyword,
    the mark of a mandatory flag. *)
Definition is_required (a : Argument) : bool :=
  match kwargs_of a !! "required" with
  | Some (KBool true) => true
  | _ => false
  end.

Section Engine.

(** Calling a class on one token, the value coercion of a flag: [None]
    stands for the failure the engine reports as a usage error. *)
Variable call_type : py_type -> string -> option py_value.

(** The no-argument construction [cls()] of a record type, which the
    dataclass machinery generates and the module only calls: the instance
    built from the declared defaults, or the exception of the call. *)
Variable instantiate : PyClass -> result Instance.

(** Modelled from the spec: the engine's coercion of one token by the
    value type of the flag; a flag without value type keeps the text. *)
Definition coerce (a : Argument) (token : string) : option py_value :=
  match kwargs_of a !! "type" with
  | Some (KType t) => call_type t token
  | _ => Some (VStr token)
  end.

(** Modelled from the spec: the values of a flag, coerced in the order
    supplied. *)
Fixpoint coerce_all (a : Argument) (tokens : list string)
  : option (list py_value) :=
  match tokens with
  | [] => Some []
  | t :: rest =>
      match coerce a t, coerce_all a rest with
      | Some v, Some vs => Some (v :: vs)
      | _, _ => None
      end
  end.

(** Modelled from the spec: the state of the engine's token consumption,
    the namespace, the attributes already written by a flag, and the
    value-taking flag still collecting. *)
Record engine_state : Type := mkState {
  st_namespace : gmap string py_value;
  st_seen : list string;
  st_open : option (Argument * list string)
}.

(** Modelled from the spec: an absent, non-required flag leaves the
    attribute as the instance has it; an attribute the instance lacks
    receives the engine's own default for the flag's action. *)
Definition engine_default (a : Argument) : option py_value :=
  match kind_of a with
  | Store => Some VNone
  | StoreTrue => Some (VBool false)
  | StoreFalse => Some (VBool true)
  | Help | UnknownAction _ => None
  end.

(** Modelled from the spec: the engine fills in its defaults, flag by
    flag, only where the instance has no such attribute yet. *)
Fixpoint add_defaults (flags : list Argument) (ns : gmap string py_value)
  : gmap string py_value :=
  match flags with
  | [] => ns
  | a :: rest =>
      let ns :=
        match ns !! dest_of a, engine_default a with
        | None, Some v => <[dest_of a := v]> ns
        | _, _ => ns
        end in
      add_defaults rest ns
  end.

(** Modelled from the spec: a value-taking flag stores its single coerced
    value, or the sequence of its coerced values in the order supplied;
    "+" wants one value at least. *)
Definition close_open (st : engine_state) : engine_state + string :=
  match st_open st with
  | None => inl st
  | Some (a, values) =>
      match coerce_all a values with
      | None => inr "invalid value"
      | Some vs =>
          let stored :=
            match kwargs_of a !! "nargs", vs with
            | None, [v] => Some v
            | None, _ => None
            | Some (KStr "+"), [] => None
            | Some _, _ => Some (VList vs)
            end in
          match stored with
          | None => inr "expected argument"
          | Some v =>
              inl (mkState (<[dest_of a := v]> (st_namespace st))
                     (dest_of a :: st_seen st) None)
          end
      end
  end.

(** Modelled from the spec: the engine's lookup of a flag by one of its
    option strings (prefix matching is left out). *)
Definition find_flag (flags : list Argument) (token : string)
  : option Argument :=
  List.find (fun a => existsb (String.eqb token) (option_strings a)) flags.

(** Modelled from the spec: token consumption, flag by flag.  A toggle
    writes the negation of the field's default, a help request exits, an
    unknown token is a usage error. *)
Fixpoint consume (flags : list Argument) (tokens : list string)
    (st : engine_state) : parse_outcome + engine_state :=
  match tokens with
  | [] =>
      match close_open st with
      | inl st => inr st
      | inr msg => inl (UsageError msg)
      end
  | token :: rest =>
      if startswith "-" token then
        match close_open st with
        | inr msg => inl (UsageError msg)
        | inl st =>
            match find_flag flags token with
            | None => inl (UsageError "unrecognized arguments")
            | Some a =>
                match kind_of a with
                | Help => inl HelpExit
                | StoreTrue =>
                    consume flags rest
                      (mkState (<[dest_of a := VBool true]> (st_namespace st))
                         (dest_of a :: st_seen st) None)
                | StoreFalse =>
                    consume flags rest
                      (mkState (<[dest_of a := VBool false]> (st_namespace st))
                         (dest_of a :: st_seen st) None)
                | Store =>
                    consume flags rest
                      (mkState (st_namespace st) (st_seen st) (Some (a, [])))
                | UnknownAction _ => inl (UsageError "unknown action")
                end
            end
        end
      else
        match st_open st with
        | Some (a, values) =>
            consume flags rest
              (mkState (st_namespace st) (st_seen st)
                 (Some (a, values ++ [token])))
        | None => inl (UsageError "unrecognized arguments")
        end
  end.

(** Modelled from the spec: some mandatory flag was not supplied. *)
Definition missing_required (flags : list Argument) (seen : list string)
  : bool :=
  existsb
    (fun a => is_required a
              && negb (existsb (String.eqb (dest_of a)) seen))
    flags.

(** Modelled from the spec: the engine's [parse_args(args, namespace)],
    which argparse implements and the module inherits: it mutates the
    given instance per recognized flag and returns it, and a missing
    mandatory flag is a usage error. *)
Definition engine_parse_args (p : Parser) (args : list string)
    (namespace : Instance) : parse_outcome :=
  let flags := parser_arguments p in
  let ns := add_defaults flags (attributes namespace) in
  match consume flags args (mkState ns [] None) with
  | inl outcome => outcome
  | inr st =>
      if missing_required flags (st_seen st)
      then UsageError "the following arguments are required"
      else Parsed (mkInstance (instance_class namespace) (st_namespace st))
  end.

(** Lines 27-31, [TypedArgumentParser.parse_args]. *)
Definition parse_args (p : Parser) (args : list string)
    (namespace : option Instance) : result parse_outcome :=
  let? namespace :=
    match namespace with
    | None => instantiate (name_space_class p)
    | Some ns => Ok ns
    end in
  Ok (engine_parse_args p args namespace).

End Engine.

(** A sample token coercion: the builtin classes [int], [str] and [bool]
    called on a token. *)
Definition digit_of (c : ascii) : option Z :=
  let n := Z.of_nat (nat_of_ascii c) in
  if (48 <=? n)%Z && (n <=? 57)%Z then Some (n - 48)%Z else None.

Fixpoint digits_value (s : string) (acc : Z) : option Z :=
  match s with
  | EmptyString => Some acc
  | String c rest =>
      match digit_of c with
      | Some d => digits_value rest (10 * acc + d)%Z
      | None => None
      end
  end.

Definition parse_int (s : string) : option Z :=
  match s with
  | EmptyString => None
  | String "-"%char (String _ _ as rest) => Z.opp <$> digits_value rest 0
  | String "-"%char EmptyString => None
  | _ => digits_value s 0
  end.

Definition builtin_call (t : py_type) (token : string) : option py_value :=
  match t with
  | TClass "int" => VInt <$> parse_int token
  | TClass "str" => Some (VStr token)
  | TClass "bool" => Some (VBool (negb (String.eqb token "")))
  | _ => None
  end.

(** ** What the loop does with one field *)

(** The value bound to [default] when the loop body reaches line 165 for the
    field; [None] when the body is left before: by [continue] (help alias,
    ClassVar) or by an exception of the factory. *)
Definition resolved_default (f : Field) : option py_value :=
  if is_help_alias (name f) then None
  else if is_ClassVar (get_origin (type f)) then None
  else match resolve_default f with
       | Ok d => Some d
       | Raise _ => None
       end.

(** [a] is the flag of field [f] in parser [p]: the one call
    [add_argument("--<name>", ...)] the loop body made for [f]. *)
Definition registered_flag (p : Parser) (f : Field) (a : Argument) : Prop :=
  translate_field f = Ok [a]
  /\ option_strings a = ["--" +:+ name f]
  /\ In a (parser_arguments p).

(** The arguments added by the loop of [get_parser], on the parser itself
    or on its one group. *)
Definition loop_arguments (p : Parser) : list Argument :=
  own_arguments p ++ flat_map snd (argument_groups p).

(** A parameterized type the loop has no case for: neither ClassVar nor a
    list shape with exactly one type argument. *)
Definition unsupported (t : py_type) : bool :=
  match t with
  | TClass _ | TRef _ => false
  | TSub o args =>
      negb (is_ClassVar (Some o))
      && negb (is_list_origin o && (List.length args =? 1)%nat)
  end.

(** The argument of the [NotImplementedError] raised for such a type. *)
Definition unsupported_payload (t : py_type) : ni_payload :=
  match t with
  | TClass _ | TRef _ => OfType t
  | TSub o _ => if is_list_origin o then OfType t else OfOrigin o
  end.

(** The factory of the field leaves the [try] block with an exception other
    than [TypeError]. *)
Definition factory_escapes (f : Field) : bool :=
  match call_default_factory f with
  | Returns _ => false
  | Raises TypeError => false
  | Raises _ => true
  end.

Definition result_map {A B : Type} (g : A -> B) (r : result A) : result B :=
  match r with
  | Ok a => Ok (g a)
  | Raise e => Raise e
  end.

(** How one field shows in the arguments the loop adds: the help alias
    gives the standard help flag, a ClassVar field nothing, any other field
    one flag named after it. *)
Definition field_contribution (f : Field) (added : list Argument) : Prop :=
  translate_field f = Ok added
  /\ if is_help_alias (name f) then added = [help_argument]
     else if is_ClassVar (get_origin (type f)) then added = []
     else exists kwargs, added = [mkArgument ["--" +:+ name f] kwargs].

(** ** Sample records *)

(** [x: int = field(default_factory=lambda n: 0)]: the factory wants an
    argument, so calling it with none raises [TypeError]. *)
Definition wrong_arity_field : Field :=
  mkField "x" (TClass "int") VMissing (Factory (Raises TypeError)) ∅.
Definition WrongArity : PyClass :=
  UserClass "WrongArity" [TypedNamespaceClass] [wrong_arity_field].

(** [x: List[int] = True] *)
Definition list_with_bool_default : Field :=
  mkField "x" (TSub Olist [TClass "int"]) (VBool true) NoFactory ∅.

(** [xs: List[int] = field(default_factory=list)] *)
Definition ex_xs : Field :=
  mkField "xs" (TSub Olist [TClass "int"]) VMissing
    (Factory (Returns (VList []))) ∅.
Definition WithList : PyClass :=
  UserClass "WithList" [TypedNamespaceClass] [ex_xs].

(** [help: Optional[bool] = None] *)
Definition optional_help_field : Field :=
  mkField "help" (TSub (OOther "Union") [TClass "bool"; TClass "NoneType"])
    VNone NoFactory ∅.
Definition WithHelp : PyClass :=
  UserClass "WithHelp" [TypedNamespaceClass] [optional_help_field].

(** [m: Dict[str, int] = None] *)
Definition mapping_field : Field :=
  mkField "m" (TSub (OOther "dict") [TClass "str"; TClass "int"])
    VNone NoFactory ∅.
Definition WithMapping : PyClass :=
  UserClass "WithMapping" [TypedNamespaceClass] [ex_a; mapping_field].

(** [n: int = field(default=3, metadata={"help": 7, "metavar": ""})] *)
Definition ex_n : Field :=
  mkField "n" (TClass "int") (VInt 3) NoFactory
    (<["metavar" := VStr ""]> (<["help" := VInt 7]> ∅)).
Definition WithMetadata : PyClass :=
  UserClass "WithMetadata" [TypedNamespaceClass] [ex_n].

(** The calls [get_parser] makes for the fields of [ArgsA] and [ArgsB]. *)
Definition flag_a : Argument :=
  mkArgument ["--a"]
    (<["help" := KStr " default: 1"]> (<["type" := KType (TClass "int")]> ∅)).
Definition flag_c : Argument :=
  mkArgument ["--c"]
    (<["help" := KStr "help for c. default: [1]"]>
       (<["nargs" := KStr "+"]> (<["type" := KType (TClass "int")]> ∅))).
Definition flag_b : Argument :=
  mkArgument ["--b"] (<["action" := KStr "store_true"]> ∅).
Definition flag_d : Argument :=
  mkArgument ["--d"]
    (<["required" := KBool true]>
       (<["type" := KType (TClass "str")]>
          (<["metavar" := KStr "REQ_D"]> ∅))).

Definition parser_ArgsB : Parser := mkParser ArgsB false [] [flag_b; flag_d] [].
Definition group_A : Parser :=
  mkParser ArgsA false [] [] [("A", [flag_a; flag_c])].
Definition group_B : Parser :=
  mkParser ArgsB false [] [] [("B", [flag_b; flag_d])].

(** [h: bool = False], [k: ClassVar[int] = 1] and [a: int = 1] in one
    record. *)
Definition ex_h : Field := mkField "h" (TClass "bool") (VBool false) NoFactory ∅.
Definition ex_k : Field :=
  mkField "k" (TSub OClassVar [TClass "int"]) (VInt 1) NoFactory ∅.
Definition Mixed : PyClass :=
  UserClass "Mixed" [TypedNamespaceClass] [ex_h; ex_k; ex_a].
Definition parser_Mixed : Parser :=
  mkParser Mixed false [] [help_argument; flag_a] [].

(** [Args.get_parser_grouped_by_parents()] *)
Definition parser_Args : Parser :=
  mkParser Args false [group_A; group_B] [] [("Help", [help_argument])].

(** A record with a base that is no typed record: [class Job(Mixin, ArgsA)]. *)
Definition Mixin : PyClass := UserClass "Mixin" [ObjectClass] [].
Definition Job : PyClass := UserClass "Job" [Mixin; ArgsA] [ex_a; ex_c; ex_b].

(** The character [c] does not occur in [s]. *)
Fixpoint absent (c : ascii) (s : string) : bool :=
  match s with
  | EmptyString => true
  | String x rest => negb (Ascii.eqb c x) && absent c rest
  end.

(** The field declares a concrete default: a static default that is
    neither [MISSING] nor the required marker, or a factory that returns
    some value other than the required marker. *)
Definition has_concrete_default (f : Field) : bool :=
  match default_factory f with
  | Factory (Returns v) => negb (is_required_arg v)
  | Factory (Raises _) => false
  | NoFactory =>
      match default f with
      | VMissing | VRequiredArg => false
      | _ => true
      end
  end.

(** The declared type is a plain class (a scalar type, [bool] included). *)
Definition has_plain_type (f : Field) : bool :=
  match get_origin (type f) with
  | None => true
  | Some _ => false
  end.

(** [a: int = 1] and [b: bool = False] in one record, and its instance built
    from the defaults. *)
Definition Flat : PyClass := UserClass "Flat" [TypedNamespaceClass] [ex_a; ex_b].
Definition Flat_defaults : Instance :=
  mkInstance Flat (<["b" := VBool false]> (<["a" := VInt 1]> ∅)).

(** ** Further notions for the properties of the loop *)

(** The value type the type stage stores (lines 175 and 183): the declared
    type itself when it is plain, its one argument when it is a list shape. *)
Definition value_type (t : py_type) : py_type :=
  match get_origin t, get_args t with
  | Some _, [inner] => inner
  | _, _ => t
  end.

(** The keyword names the loop body ever writes (lines 168-194). *)
Definition known_keywords : list string :=
  ["help"; "metavar"; "type"; "nargs"; "required"; "action"].





(** The field with one more metadata entry. *)
Definition add_metadata (key : string) (v : py_value) (f : Field) : Field :=
  mkField (name f) (type f) (default f) (default_factory f)
    (<[key := v]> (metadata f)).

(** The calls the loop of [get_parser] makes for a class, when it ends. *)
Definition class_flags (c : PyClass) : list Argument :=
  match translate_fields (dataclasses_fields c) [] [] with
  | Ok added => added
  | Raise _ => []
  end.

(** [n: int], with neither default nor factory. *)
Definition ex_nodefault : Field :=
  mkField "n" (TClass "int") VMissing NoFactory ∅.
Definition NoDefault : PyClass :=
  UserClass "NoDefault" [TypedNamespaceClass] [ex_nodefault].
Definition parser_NoDefault : Parser :=
  mkParser NoDefault false []
    [mkArgument ["--n"]
       (<["help" := KStr (" default: " +:+ py_str VMissing)]>
          (<["type" := KType (TClass "int")]> ∅))]
    [].

(** [m: int = field(default=3, metadata={"help": 7, "metavar": 5})] *)
Definition ex_m : Field :=
  mkField "m" (TClass "int") (VInt 3) NoFactory
    (<["metavar" := VInt 5]> (<["help" := VInt 7]> ∅)).
Definition WithMetavar : PyClass :=
  UserClass "WithMetavar" [TypedNamespaceClass] [ex_m].
Definition parser_WithMetavar : Parser :=
  mkParser WithMetavar false []
    [mkArgument ["--m"]
       (<["help" := KStr "7 default: 3"]>
          (<["type" := KType (TClass "int")]>
             (<["metavar" := KStr "5"]> ∅)))]
    [].

(** Modelled from the spec: [inst] is "an instance built from declared
    defaults" of the record type, holding for every field the value of its
    factory or its static default. *)
Definition built_from_defaults (cls : PyClass) (inst : Instance) : Prop :=
  forall f, In f (dataclasses_fields cls) ->
    exists d, resolve_default f = Ok d /\ attributes inst !! name f = Some d.

(** [Args()], the instance of [Args] built from its defaults. *)
Definition Args_defaults : Instance :=
  mkInstance Args
    (<["b" := VBool false]>
       (<["d" := VRequiredArg]>
          (<["a" := VInt 1]> (<["c" := VList [VInt 1]]> ∅)))).

(** [b: bool = field(default=False, metadata={"metavar": "B"})] *)
Definition ex_bool_metavar : Field :=
  mkField "b" (TClass "bool") (VBool false) NoFactory
    (<["metavar" := VStr "B"]> ∅).
Definition BoolMetavar : PyClass :=
  UserClass "BoolMetavar" [TypedNamespaceClass] [ex_bool_metavar].

(** [h: bool = False] and [help: bool = False] in one record. *)
Definition ex_help : Field :=
  mkField "help" (TClass "bool") (VBool false) NoFactory ∅.
Definition BothAliases : PyClass :=
  UserClass "BothAliases" [TypedNamespaceClass] [ex_h; ex_help].


(** [class Twice(ArgsA, ArgsA2)] where both bases declare a field [a]. *)
Definition ArgsA2 : PyClass := UserClass "ArgsA2" [TypedNamespaceClass] [ex_a].
Definition Twice : PyClass := UserClass "Twice" [ArgsA; ArgsA2] [].

(** [t: int = 1] under [from __future__ import annotations]: the declared
    type is the text ["int"]. *)
Definition ex_text : Field :=
  mkField "t" (TRef "int") (VInt 1) NoFactory ∅.
Definition TextAnnotation : PyClass :=
  UserClass "TextAnnotation" [TypedNamespaceClass] [ex_text].

(** * Properties *)

(** ** Sample evaluations *)

Example ex_a_flag :
  translate_field ex_a =
  Ok [mkArgument ["--a"]
        (<["help" := KStr " default: 1"]> (<["type" := KType (TClass "int")]> ∅))].
Proof. vm_compute. reflexivity. Qed.

Example default_group_name_ArgsA : default_group_name "ArgsA" = "A".
Proof. reflexivity. Qed.

Example default_group_name_nested :
  default_group_name "MyArNamespacegsNamespace" = "My".
Proof. reflexivity. Qed.

(** ** Lemmas on the keyword arguments *)

Lemma bind_Ok {A B : Type} (r : result A) (k : A -> result B) (b : B) :
  bind r k = Ok b -> exists a, r = Ok a /\ k a = Ok b.
Proof. destruct r as [a|e]; simpl; [eauto | discriminate]. Qed.

Lemma bind_Raise {A B : Type} (r : result A) (k : A -> result B) (e : exn) :
  bind r k = Raise e -> r = Raise e \/ exists a, r = Ok a /\ k a = Raise e.
Proof. destruct r as [a|e']; simpl; [eauto | intros [= ->]; auto]. Qed.

Lemma set_if_nonempty_lookup key s (kwargs : gmap string kw_value) :
  set_if_nonempty key s kwargs !! key
  = if String.eqb s "" then kwargs !! key else Some (KStr s).
Proof.
  unfold set_if_nonempty. destruct (String.eqb s ""); [done|].
  by rewrite lookup_insert_eq.
Qed.

Lemma set_if_nonempty_lookup_ne key key' s (kwargs : gmap string kw_value) :
  key <> key' ->
  set_if_nonempty key s kwargs !! key' = kwargs !! key'.
Proof.
  intros Hne. unfold set_if_nonempty. destruct (String.eqb s ""); [done|].
  by rewrite lookup_insert_ne.
Qed.

Lemma metadata_kwargs_help f :
  metadata_kwargs f !! "help"
  = if String.eqb (metadata_str f "help") "" then None
    else Some (KStr (metadata_str f "help")).
Proof.
  unfold metadata_kwargs.
  rewrite set_if_nonempty_lookup_ne by discriminate.
  rewrite set_if_nonempty_lookup. by rewrite lookup_empty.
Qed.

Lemma metadata_kwargs_metavar f :
  metadata_kwargs f !! "metavar"
  = if String.eqb (metadata_str f "metavar") "" then None
    else Some (KStr (metadata_str f "metavar")).
Proof.
  unfold metadata_kwargs. rewrite set_if_nonempty_lookup.
  rewrite set_if_nonempty_lookup_ne by discriminate.
  by rewrite lookup_empty.
Qed.

Lemma metadata_kwargs_other f key :
  key <> "help" -> key <> "metavar" -> metadata_kwargs f !! key = None.
Proof.
  intros H1 H2. unfold metadata_kwargs.
  rewrite !set_if_nonempty_lookup_ne by congruence. apply lookup_empty.
Qed.

Lemma kwargs_get_help_metadata f kwargs :
  kwargs !! "help" = metadata_kwargs f !! "help" ->
  kwargs_get_help kwargs = metadata_str f "help".
Proof.
  intros H. unfold kwargs_get_help. rewrite H, metadata_kwargs_help.
  destruct (String.eqb (metadata_str f "help") "") eqn:E; [|done].
  apply String.eqb_eq in E. by rewrite E.
Qed.

(** The type stage only writes ["type"] and ["nargs"]. *)
Lemma type_kwargs_frame t kwargs kwargs' key :
  type_kwargs t kwargs = Ok kwargs' ->
  key <> "type" -> key <> "nargs" -> kwargs' !! key = kwargs !! key.
Proof.
  unfold type_kwargs. intros H Ht Hn.
  destruct (get_origin t) as [o|].
  - destruct (is_list_origin o); [|discriminate].
    destruct (get_args t) as [|inner [|]]; try discriminate.
    injection H as <-. by rewrite !lookup_insert_ne by congruence.
  - injection H as <-. by rewrite lookup_insert_ne by congruence.
Qed.

(** After the type stage ["type"] is always present. *)
Lemma type_kwargs_has_type t kwargs kwargs' :
  type_kwargs t kwargs = Ok kwargs' -> is_Some (kwargs' !! "type").
Proof.
  unfold type_kwargs. intros H.
  destruct (get_origin t) as [o|].
  - destruct (is_list_origin o); [|discriminate].
    destruct (get_args t) as [|inner [|]]; try discriminate.
    injection H as <-. rewrite lookup_insert_ne by discriminate.
    rewrite lookup_insert_eq. eauto.
  - injection H as <-. rewrite lookup_insert_eq. eauto.
Qed.

Lemma type_kwargs_plain name0 kwargs :
  type_kwargs (TClass name0) kwargs
  = Ok (<["type" := KType (TClass name0)]> kwargs).
Proof. reflexivity. Qed.


Lemma type_kwargs_unsupported t kwargs :
  unsupported t = true ->
  type_kwargs t kwargs = Raise (NotImplementedError (unsupported_payload t)).
Proof.
  destruct t as [n|o args|r]; [discriminate| |discriminate].
  unfold unsupported, type_kwargs, unsupported_payload. simpl.
  intros H. apply andb_prop in H as [_ H].
  destruct (is_list_origin o); [|done].
  destruct args as [|a [|b rest]]; simpl in H; try discriminate; done.
Qed.

Lemma type_kwargs_raise t kwargs e :
  type_kwargs t kwargs = Raise e -> exists payload, e = NotImplementedError payload.
Proof.
  unfold type_kwargs.
  destruct (get_origin t) as [o|]; [|discriminate].
  destruct (is_list_origin o).
  - destruct (get_args t) as [|inner [|]]; intros [= <-]; eauto.
  - intros [= <-]; eauto.
Qed.

(** The pop of line 192 always finds its key. *)
Lemma default_kwargs_total d kwargs :
  is_Some (kwargs !! "type") -> exists kwargs', default_kwargs d kwargs = Ok kwargs'.
Proof.
  intros [t Ht]. unfold default_kwargs.
  destruct (is_required_arg d); [eauto|].
  destruct d; eauto.
  unfold kwargs_pop. rewrite lookup_insert_ne by discriminate.
  rewrite Ht. eauto.
Qed.

Lemma default_kwargs_bool b kwargs kwargs' :
  default_kwargs (VBool b) kwargs = Ok kwargs' ->
  kwargs' = delete "type"
              (<["action" := KStr (if b then "store_false" else "store_true")]>
                 kwargs).
Proof.
  unfold default_kwargs, kwargs_pop. simpl.
  destruct (_ !! "type"); [|discriminate]. by intros [= <-].
Qed.

Lemma default_kwargs_required kwargs :
  default_kwargs VRequiredArg kwargs = Ok (<["required" := KBool true]> kwargs).
Proof. reflexivity. Qed.

Lemma default_kwargs_other d kwargs :
  is_required_arg d = false -> is_bool d = false ->
  default_kwargs d kwargs
  = Ok (<["help" := KStr (kwargs_get_help kwargs +:+ " default: "
                          +:+ py_str d)]> kwargs).
Proof. intros Hr Hb. unfold default_kwargs. rewrite Hr. by destruct d. Qed.

(** ** Lemmas on what [add_argument] refuses *)

Lemma create_action_Ok a a' : create_action a = Ok a' -> a' = a.
Proof.
  unfold create_action. intros H.
  apply bind_Ok in H as (u & _ & H). apply bind_Ok in H as (u' & _ & H).
  apply bind_Ok in H as (u'' & _ & H). by injection H.
Qed.

Lemma create_action_help : create_action help_argument = Ok help_argument.
Proof. vm_compute. reflexivity. Qed.

Lemma create_action_Raise a e :
  create_action a = Raise e -> e = TypeError \/ e = ValueError.
Proof.
  unfold create_action, check_option_strings, check_keywords. intros H.
  apply bind_Raise in H as [H | (u & _ & H)].
  - destruct (option_strings a) as [|first rest]; [injection H; auto|].
    destruct (forallb _ _); [|injection H; auto].
    destruct (String.eqb _ _); [injection H; auto | discriminate].
  - apply bind_Raise in H as [H | (u' & _ & H)].
    + destruct (accepted_keywords _); [|injection H; auto].
      destruct (bool_decide _); [discriminate | injection H; auto].
    + apply bind_Raise in H as [H | (u'' & _ & H)]; [|discriminate].
      unfold check_value_type in H.
      destruct (kwargs_of a !! "type") as [[]|]; try discriminate;
        try (injection H; auto).
      destruct (is_callable _); [discriminate | injection H; auto].
Qed.






Lemma add_actions_app xs : forall taken ys,
  add_actions taken (xs ++ ys)
  = (let? taken' := add_actions taken xs in add_actions taken' ys).
Proof.
  induction xs as [|a xs IH]; intros taken ys; simpl; [done|].
  destruct (check_conflict taken a) as [t|e]; simpl; [apply IH | done].
Qed.


(** ** Lemmas on the loop *)

Lemma translate_field_alias f :
  is_help_alias (name f) = true -> translate_field f = Ok [help_argument].
Proof.
  intros H. unfold translate_field. by rewrite H, create_action_help.
Qed.


(** A field that passes both [continue] tests runs the three stages and
    the call. *)
Lemma translate_field_stages f :
  is_help_alias (name f) = false ->
  is_ClassVar (get_origin (type f)) = false ->
  translate_field f =
  (let? dflt := resolve_default f in
   let? kwargs := type_kwargs (type f) (metadata_kwargs f) in
   let? kwargs := default_kwargs dflt kwargs in
   let? action := create_action (mkArgument ["--" +:+ name f] kwargs) in
   Ok [action]).
Proof. intros Ha Hc. unfold translate_field. by rewrite Ha, Hc. Qed.

Lemma resolved_default_Some f d :
  resolved_default f = Some d ->
  is_help_alias (name f) = false
  /\ is_ClassVar (get_origin (type f)) = false
  /\ resolve_default f = Ok d.
Proof.
  unfold resolved_default.
  destruct (is_help_alias (name f)); [discriminate|].
  destruct (is_ClassVar (get_origin (type f))); [discriminate|].
  destruct (resolve_default f); [|discriminate].
  by intros [= ->].
Qed.

(** When a field with a resolved default is translated without exception,
    the outcome is one flag, built by the type stage and the default stage. *)
Lemma translate_field_resolved f d added :
  resolved_default f = Some d ->
  translate_field f = Ok added ->
  exists kw1 kw2,
    type_kwargs (type f) (metadata_kwargs f) = Ok kw1
    /\ default_kwargs d kw1 = Ok kw2
    /\ added = [mkArgument ["--" +:+ name f] kw2].
Proof.
  intros Hd Ht. apply resolved_default_Some in Hd as (Ha & Hc & Hr).
  rewrite translate_field_stages, Hr in Ht by done. simpl in Ht.
  apply bind_Ok in Ht as (kw1 & H1 & Ht).
  apply bind_Ok in Ht as (kw2 & H2 & Ht).
  apply bind_Ok in Ht as (a & Hcreate & Ht).
  apply create_action_Ok in Hcreate as ->.
  injection Ht as <-. eauto.
Qed.


(** The exceptions the body can raise: the factory's own (other than
    [TypeError]), [NotImplementedError], and what [add_argument] raises when
    it builds the action. *)
Lemma translate_field_raise f e :
  translate_field f = Raise e ->
  (factory_escapes f = true /\ call_default_factory f = Raises e)
  \/ (exists payload, e = NotImplementedError payload)
  \/ e = TypeError \/ e = ValueError.
Proof.
  unfold translate_field.
  destruct (is_help_alias (name f));
    [rewrite create_action_help; discriminate|].
  destruct (is_ClassVar (get_origin (type f))); [discriminate|].
  intros H. apply bind_Raise in H as [H | (d & Hd & H)].
  - left. unfold resolve_default, factory_escapes in *.
    destruct (call_default_factory f) as [v|[]]; try discriminate;
      injection H as <-; done.
  - right. apply bind_Raise in H as [H | (kw1 & H1 & H)].
    + left. by apply type_kwargs_raise in H.
    + apply bind_Raise in H as [H | (kw2 & H2 & H)].
      * apply type_kwargs_has_type in H1.
        destruct (default_kwargs_total d kw1 H1) as [kw2 H2]. congruence.
      * right. apply bind_Raise in H as [H | (a & _ & H)]; [|discriminate].
        by apply create_action_Raise in H.
Qed.

(** The loop as a whole: when it ends normally every field was translated,
    the group holds the contributions in field order, and argparse found
    no conflict among them. *)
Lemma translate_fields_Ok fs : forall taken group r,
  translate_fields fs taken group = Ok r ->
  exists per taken',
    Forall2 (fun f added => translate_field f = Ok added) fs per
    /\ r = group ++ List.concat per
    /\ add_actions taken (List.concat per) = Ok taken'.
Proof.
  induction fs as [|f fs IH]; intros taken group r; simpl.
  - intros [= <-]. exists [], taken. split; [constructor|].
    by rewrite app_nil_r.
  - intros H. apply bind_Ok in H as (added & Hf & H).
    apply bind_Ok in H as (t & Ht & H).
    apply IH in H as (per & taken' & HF & -> & Hadd).
    exists (added :: per), taken'. split; [by constructor|]. split.
    + simpl. by rewrite app_assoc.
    + simpl. rewrite add_actions_app, Ht. exact Hadd.
Qed.


Lemma translate_fields_In_raises fs : forall taken group f e,
  In f fs -> translate_field f = Raise e ->
  exists e', translate_fields fs taken group = Raise e'.
Proof.
  induction fs as [|g fs IH]; intros taken group f e Hin Hf; [destruct Hin|].
  simpl. destruct (translate_field g) as [added|e'] eqn:Hg; simpl; [|eauto].
  destruct (add_actions taken added) as [t|e'']; simpl; [|eauto].
  destruct Hin as [-> | Hin]; [congruence|]. eapply IH; eauto.
Qed.

Lemma get_parser_Ok cls group_title add_help0 p :
  get_parser cls group_title add_help0 = Ok p ->
  exists added,
    translate_fields (dataclasses_fields cls)
      (initial_option_strings add_help0) [] = Ok added
    /\ loop_arguments p = added
    /\ parser_arguments p
       = (if add_help0 then [help_argument] else []) ++ added
    /\ name_space_class p = cls /\ add_help p = add_help0 /\ parents p = []
    /\ match group_title with
       | None => own_arguments p = added /\ argument_groups p = []
       | Some t => own_arguments p = [] /\ argument_groups p = [(t, added)]
       end.
Proof.
  unfold get_parser. intros H. apply bind_Ok in H as (added & Hl & H).
  exists added. split; [done|].
  destruct group_title as [t|]; injection H as <-;
    unfold loop_arguments; simpl; rewrite ?app_nil_r; done.
Qed.

(** In a parser that [get_parser] returns, every field was translated, and
    what it contributed is among the parser's arguments. *)
Lemma get_parser_field cls group_title add_help0 p f :
  get_parser cls group_title add_help0 = Ok p ->
  In f (dataclasses_fields cls) ->
  exists added, translate_field f = Ok added
                /\ incl added (parser_arguments p).
Proof.
  intros Hp Hin. apply get_parser_Ok in Hp as (all & Hl & _ & Hargs & _).
  apply translate_fields_Ok in Hl as (per & taken' & HF & -> & _).
  simpl in Hargs. rewrite Hargs. clear Hargs.
  induction HF as [|g added fs per Hg HF IH]; [destruct Hin|].
  destruct Hin as [-> | Hin].
  - exists added. split; [done|]. intros a Ha. simpl.
    apply in_or_app. right. apply in_or_app. auto.
  - destruct (IH Hin) as (added' & Hf & Hincl). exists added'.
    split; [done|]. intros a Ha. specialize (Hincl a Ha).
    apply in_app_or in Hincl as [Hh | Hc]; apply in_or_app; [auto|].
    right. simpl. apply in_or_app. auto.
Qed.

(** A field with a resolved default has its flag in the returned parser. *)
Lemma get_parser_registers cls group_title add_help0 p f d :
  get_parser cls group_title add_help0 = Ok p ->
  In f (dataclasses_fields cls) ->
  resolved_default f = Some d ->
  exists kw1 kw2,
    type_kwargs (type f) (metadata_kwargs f) = Ok kw1
    /\ default_kwargs d kw1 = Ok kw2
    /\ registered_flag p f (mkArgument ["--" +:+ name f] kw2).
Proof.
  intros Hp Hin Hd.
  destruct (get_parser_field _ _ _ _ _ Hp Hin) as (added & Hf & Hincl).
  destruct (translate_field_resolved _ _ _ Hd Hf) as (kw1 & kw2 & H1 & H2 & ->).
  exists kw1, kw2. repeat split; try done. apply Hincl. by left.
Qed.


(** The default stage writes ["required"], ["action"] and ["help"], and
    removes ["type"]; every other key is left alone. *)
Lemma default_kwargs_frame d kw1 kw2 key :
  default_kwargs d kw1 = Ok kw2 ->
  key <> "required" -> key <> "action" -> key <> "type" -> key <> "help" ->
  kw2 !! key = kw1 !! key.
Proof.
  intros H Hr Ha Ht Hh. unfold default_kwargs, kwargs_pop in H.
  destruct d; simpl in H;
    try (injection H as <-; by rewrite lookup_insert_ne by congruence).
  destruct (_ !! "type"); [|discriminate]. injection H as <-.
  rewrite lookup_delete_ne by congruence.
  by rewrite lookup_insert_ne by congruence.
Qed.

Lemma default_kwargs_type d kw1 kw2 :
  default_kwargs d kw1 = Ok kw2 ->
  kw2 !! "type" = if is_bool d then None else kw1 !! "type".
Proof.
  intros H. unfold default_kwargs, kwargs_pop in H.
  destruct d; simpl in H;
    try (injection H as <-; by rewrite lookup_insert_ne by discriminate).
  destruct (_ !! "type"); [|discriminate]. injection H as <-.
  simpl. apply lookup_delete_eq.
Qed.

Lemma default_kwargs_help d kw1 kw2 :
  default_kwargs d kw1 = Ok kw2 ->
  kw2 !! "help"
  = if is_required_arg d || is_bool d then kw1 !! "help"
    else Some (KStr (kwargs_get_help kw1 +:+ " default: " +:+ py_str d)).
Proof.
  intros H. unfold default_kwargs, kwargs_pop in H.
  destruct d; simpl in H;
    try (injection H as <-; simpl; by rewrite lookup_insert_eq);
    try (injection H as <-; simpl; by rewrite lookup_insert_ne by discriminate).
  destruct (_ !! "type"); [|discriminate]. injection H as <-. simpl.
  rewrite lookup_delete_ne by discriminate.
  by rewrite lookup_insert_ne by discriminate.
Qed.

Lemma default_kwargs_action b kw1 kw2 :
  default_kwargs (VBool b) kw1 = Ok kw2 ->
  kw2 !! "action" = Some (KStr (if b then "store_false" else "store_true")).
Proof.
  intros H. apply default_kwargs_bool in H as ->.
  rewrite lookup_delete_ne by discriminate. apply lookup_insert_eq.
Qed.

Lemma default_kwargs_required_iff d kw1 kw2 :
  default_kwargs d kw1 = Ok kw2 ->
  kw1 !! "required" = None ->
  kw2 !! "required" = if is_required_arg d then Some (KBool true) else None.
Proof.
  intros H Hn. unfold default_kwargs, kwargs_pop in H.
  destruct d; simpl in H;
    try (injection H as <-; simpl; by rewrite lookup_insert_ne by discriminate);
    try (injection H as <-; simpl; by rewrite lookup_insert_eq).
  destruct (_ !! "type"); [|discriminate]. injection H as <-. simpl.
  rewrite lookup_delete_ne by discriminate.
  by rewrite lookup_insert_ne by discriminate.
Qed.

(** ** The default factory *)

(** C1, as the source has it: a [TypeError] raised by calling the field's
    default factory during parser construction is caught on line 162 and
    not propagated: the field's static default becomes the resolved
    default, and the field is translated exactly as if it had no factory. *)
Theorem default_factory_TypeError_is_caught (f : Field) :
  call_default_factory f = Raises TypeError ->
  resolve_default f = Ok (default f)
  /\ translate_field f
     = translate_field
         (mkField (name f) (type f) (default f) NoFactory (metadata f)).
Proof.
  intros Hcall.
  assert (Hres : resolve_default f = Ok (default f)).
  { unfold resolve_default. by rewrite Hcall. }
  split; [done|].
  unfold translate_field. simpl. rewrite Hres.
  destruct (is_help_alias (name f)); [done|].
  destruct (is_ClassVar (get_origin (type f))); done.
Qed.

Lemma default_factory_TypeError_is_caught_witness :
  resolve_default wrong_arity_field = Ok VMissing
  /\ translate_field wrong_arity_field
     = translate_field (mkField "x" (TClass "int") VMissing NoFactory ∅).
Proof.
  apply (default_factory_TypeError_is_caught wrong_arity_field).
  reflexivity.
Defined.

(** C1 fails as stated: the factory of [wrong_arity_field] raises
    [TypeError], and [get_parser] returns a parser all the same, the flag
    showing the [MISSING] sentinel as its default. *)
Lemma wrong_arity_factory_builds_a_parser :
  call_default_factory wrong_arity_field = Raises TypeError
  /\ get_parser WrongArity None false
     = Ok (mkParser WrongArity false []
             [mkArgument ["--x"]
                (<["help" := KStr (" default: " +:+ py_str VMissing)]>
                   (<["type" := KType (TClass "int")]> ∅))]
             []).
Proof. split; vm_compute; reflexivity. Qed.

(** ** Help text and the resolved default *)

(** C2, as the source has it: for every field whose resolved default is
    neither the required marker nor a boolean, the flag [get_parser]
    registers has the text [" default: <value>"] appended to the help text
    of the metadata, and that text alone as its help when the metadata has
    no help entry. *)
Theorem default_text_in_help
    (cls : PyClass) (group_title : option string) (add_help0 : bool)
    (p : Parser) (f : Field) (d : py_value) :
  get_parser cls group_title add_help0 = Ok p ->
  In f (dataclasses_fields cls) ->
  resolved_default f = Some d ->
  is_required_arg d = false ->
  is_bool d = false ->
  exists a,
    registered_flag p f a
    /\ kwargs_of a !! "help"
       = Some (KStr (metadata_str f "help" +:+ " default: " +:+ py_str d))
    /\ (metadata f !! "help" = None ->
        kwargs_of a !! "help" = Some (KStr (" default: " +:+ py_str d))).
Proof.
  intros Hp Hin Hd Hreq Hbool.
  destruct (get_parser_registers _ _ _ _ _ _ Hp Hin Hd)
    as (kw1 & kw2 & H1 & H2 & Hreg).
  exists (mkArgument ["--" +:+ name f] kw2). split; [done|]. simpl.
  assert (Hhelp : kw2 !! "help"
          = Some (KStr (metadata_str f "help" +:+ " default: " +:+ py_str d))).
  { rewrite (default_kwargs_help _ _ _ H2), Hreq, Hbool. simpl.
    rewrite (kwargs_get_help_metadata f); [done|].
    eapply type_kwargs_frame; eauto; discriminate. }
  split; [done|]. intros Hnone. rewrite Hhelp.
  unfold metadata_str. by rewrite Hnone.
Qed.

Lemma default_text_in_help_witness :
  exists a,
    registered_flag group_A ex_c a
    /\ kwargs_of a !! "help" = Some (KStr "help for c. default: [1]").
Proof.
  destruct (default_text_in_help ArgsA (Some "A") false group_A ex_c
              (VList [VInt 1]))
    as (a & Hreg & Hhelp & _).
  - vm_compute. reflexivity.
  - simpl. auto.
  - reflexivity.
  - reflexivity.
  - reflexivity.
  - exists a. split; [exact Hreg | exact Hhelp].
Defined.

(** C2 fails as stated for boolean defaults: the resolved default of [b] is
    [False], not the required marker, and its flag carries no help text at
    all. *)
Lemma boolean_default_has_no_default_text :
  resolved_default ex_b = Some (VBool false)
  /\ is_required_arg (VBool false) = false
  /\ get_parser ArgsB None false
     = Ok (mkParser ArgsB false []
             [mkArgument ["--b"] (<["action" := KStr "store_true"]> ∅);
              flag_d]
             [])
  /\ (<["action" := KStr "store_true"]> ∅ : gmap string kw_value) !! "help"
     = None.
Proof. repeat split; vm_compute; reflexivity. Qed.

(** ** Boolean defaults *)

(** A plain declared type leaves no arity among the keyword arguments. *)
Lemma plain_type_has_no_arity f d kw1 kw2 :
  get_origin (type f) = None ->
  type_kwargs (type f) (metadata_kwargs f) = Ok kw1 ->
  default_kwargs d kw1 = Ok kw2 ->
  kw2 !! "nargs" = None.
Proof.
  intros Ho H1 H2.
  rewrite (default_kwargs_frame _ _ _ "nargs" H2) by discriminate.
  unfold type_kwargs in H1. rewrite Ho in H1. injection H1 as <-.
  rewrite lookup_insert_ne by discriminate.
  apply metadata_kwargs_other; discriminate.
Qed.

(** C3: for every field whose resolved default is a boolean, the flag
    [get_parser] registers is a toggle: its action stores the negation of
    the default ([store_false] for [True], [store_true] for [False]) and it
    has no value type; with a plain declared type it has no arity either. *)
Theorem boolean_default_is_toggle
    (cls : PyClass) (group_title : option string) (add_help0 : bool)
    (p : Parser) (f : Field) (b : bool) :
  get_parser cls group_title add_help0 = Ok p ->
  In f (dataclasses_fields cls) ->
  resolved_default f = Some (VBool b) ->
  exists a,
    registered_flag p f a
    /\ kwargs_of a !! "action"
       = Some (KStr (if b then "store_false" else "store_true"))
    /\ kwargs_of a !! "type" = None
    /\ (get_origin (type f) = None -> kwargs_of a !! "nargs" = None).
Proof.
  intros Hp Hin Hd.
  destruct (get_parser_registers _ _ _ _ _ _ Hp Hin Hd)
    as (kw1 & kw2 & H1 & H2 & Hreg).
  exists (mkArgument ["--" +:+ name f] kw2). split; [done|]. simpl.
  split; [by apply default_kwargs_action in H2|].
  split; [by rewrite (default_kwargs_type _ _ _ H2)|].
  intros Ho. by eapply plain_type_has_no_arity.
Qed.

Lemma boolean_default_is_toggle_witness :
  exists a,
    registered_flag group_B ex_b a
    /\ kwargs_of a !! "action" = Some (KStr "store_true")
    /\ kwargs_of a !! "type" = None
    /\ kwargs_of a !! "nargs" = None.
Proof.
  destruct (boolean_default_is_toggle ArgsB (Some "B") false group_B ex_b false)
    as (a & Hreg & Haction & Htype & Hnargs).
  - vm_compute. reflexivity.
  - simpl. auto.
  - reflexivity.
  - exists a. split; [exact Hreg|]. split; [exact Haction|].
    split; [exact Htype|]. apply Hnargs. reflexivity.
Defined.

(** ** Sequence types *)



(** [x: List[int] = True]: line 192 removes the value type and the arity
    stays, a call that argparse refuses; the field never has a flag. *)
Example list_field_with_boolean_default_is_refused :
  translate_field list_with_bool_default = Raise TypeError.
Proof. vm_compute. reflexivity. Qed.

(** ** One flag per field *)

(** C5: in a parser returned by [get_parser], the arguments added by the
    loop are the contributions of the fields, in field order: the standard
    help flag ([-h], [--help]) and nothing else for a field named [h] or
    [help], whatever its type and default; nothing for a ClassVar field;
    exactly one flag named ["--" + name] for every other field.  The alias
    test comes first, as on line 150. *)
Theorem one_contribution_per_field
    (cls : PyClass) (group_title : option string) (add_help0 : bool)
    (p : Parser) :
  get_parser cls group_title add_help0 = Ok p ->
  exists per,
    Forall2 field_contribution (dataclasses_fields cls) per
    /\ loop_arguments p = List.concat per.
Proof.
  intros Hp. apply get_parser_Ok in Hp as (added & Hl & Hloop & _).
  apply translate_fields_Ok in Hl as (per & taken' & HF & -> & _).
  exists per. split; [|by rewrite Hloop].
  clear Hloop. induction HF as [|f l fs per Hf HF IH]; constructor; [|done].
  split; [done|]. unfold translate_field in Hf.
  destruct (is_help_alias (name f));
    [rewrite create_action_help in Hf; by injection Hf as <-|].
  destruct (is_ClassVar (get_origin (type f))); [by injection Hf as <-|].
  apply bind_Ok in Hf as (d & _ & Hf).
  apply bind_Ok in Hf as (kw1 & _ & Hf).
  apply bind_Ok in Hf as (kw2 & _ & Hf).
  apply bind_Ok in Hf as (a & Hc & Hf).
  apply create_action_Ok in Hc as ->.
  injection Hf as <-. eauto.
Qed.

Lemma one_contribution_per_field_witness :
  exists per,
    Forall2 field_contribution [ex_h; ex_k; ex_a] per
    /\ [help_argument; flag_a] = List.concat per.
Proof.
  apply (one_contribution_per_field Mixed None false parser_Mixed).
  vm_compute. reflexivity.
Defined.

Example Mixed_contributions :
  translate_field ex_h = Ok [help_argument]
  /\ translate_field ex_k = Ok []
  /\ translate_field ex_a = Ok [flag_a].
Proof. repeat split; vm_compute; reflexivity. Qed.

(** ** Unsupported types *)

Lemma unsupported_not_ClassVar t :
  unsupported t = true -> is_ClassVar (get_origin t) = false.
Proof.
  destruct t as [n|o args|r]; [done| |done]. simpl. intros H.
  apply andb_prop in H as [H _]. by apply negb_true_iff in H.
Qed.

(** The body raises for an unsupported type: the factory's exception, or
    [NotImplementedError] when the default resolves. *)
Lemma translate_field_unsupported f :
  is_help_alias (name f) = false ->
  unsupported (type f) = true ->
  (exists e, translate_field f = Raise e)
  /\ forall d, resolve_default f = Ok d ->
       translate_field f
       = Raise (NotImplementedError (unsupported_payload (type f))).
Proof.
  intros Ha Hu. pose proof (unsupported_not_ClassVar _ Hu) as Hc.
  rewrite translate_field_stages by done.
  destruct (resolve_default f) as [d|e]; simpl.
  - rewrite type_kwargs_unsupported by done. simpl. split; [eauto|done].
  - split; [eauto | discriminate].
Qed.

(** The loop stops at the first field whose body raises. *)
Lemma translate_fields_stops pre : forall taken group r f post e,
  translate_fields pre taken group = Ok r ->
  translate_field f = Raise e ->
  translate_fields (pre ++ f :: post) taken group = Raise e.
Proof.
  induction pre as [|g pre IH]; intros taken group r f post e Hpre Hf; simpl.
  - by rewrite Hf.
  - simpl in Hpre. apply bind_Ok in Hpre as (added & Hg & Hpre).
    apply bind_Ok in Hpre as (t & Ht & Hpre).
    rewrite Hg. simpl. rewrite Ht. simpl. by eapply IH.
Qed.

(** C6, as the source has it: for every field that is not named [h] or
    [help] and whose declared type is parameterized but neither ClassVar nor
    a list shape with one type argument, [get_parser] returns no parser but
    raises; and when the loop reaches the field (the fields before it are
    translated and added without exception) and the default of the field
    resolves, the exception is [NotImplementedError] with the declared type
    (a list shape) or its origin (any other shape). *)
Theorem unsupported_type_raises
    (cls : PyClass) (group_title : option string) (add_help0 : bool)
    (f : Field) :
  In f (dataclasses_fields cls) ->
  is_help_alias (name f) = false ->
  unsupported (type f) = true ->
  (exists e, get_parser cls group_title add_help0 = Raise e)
  /\ forall pre post added d,
       dataclasses_fields cls = pre ++ f :: post ->
       translate_fields pre (initial_option_strings add_help0) [] = Ok added ->
       resolve_default f = Ok d ->
       get_parser cls group_title add_help0
       = Raise (NotImplementedError (unsupported_payload (type f))).
Proof.
  intros Hin Ha Hu.
  destruct (translate_field_unsupported f Ha Hu) as [[e He] Hni].
  split.
  - destruct (translate_fields_In_raises _ (initial_option_strings add_help0)
                [] _ _ Hin He) as [e' He'].
    exists e'. unfold get_parser. by rewrite He'.
  - intros pre post added d Hfs Hpre Hd. unfold get_parser. rewrite Hfs.
    by rewrite (translate_fields_stops _ _ _ _ _ post _ Hpre (Hni d Hd)).
Qed.

Lemma unsupported_type_raises_witness :
  (exists e, get_parser WithMapping None false = Raise e)
  /\ get_parser WithMapping None false
     = Raise (NotImplementedError (OfOrigin (OOther "dict"))).
Proof.
  destruct (unsupported_type_raises WithMapping None false mapping_field)
    as [Hraise Hfirst].
  - simpl. auto.
  - reflexivity.
  - reflexivity.
  - split; [exact Hraise|].
    apply (Hfirst [ex_a] [] [flag_a] VNone); vm_compute; reflexivity.
Defined.

(** C6 fails as stated for a field named [help]: its declared type
    [Optional[bool]] is parameterized and unsupported, the loop leaves the
    field on line 152 before looking at the type, and [get_parser] returns
    a parser. *)
Lemma unsupported_type_of_help_field_is_ignored :
  In optional_help_field (dataclasses_fields WithHelp)
  /\ unsupported (type optional_help_field) = true
  /\ get_parser WithHelp None false
     = Ok (mkParser WithHelp false [] [help_argument] []).
Proof. split; [simpl; auto|]. split; vm_compute; reflexivity. Qed.

(** ** Metadata entries *)

(** C10: the help and metavar entries of the metadata reach the flag only
    through [str], and an entry whose string is empty counts as absent.
    The metavar keyword is [str] of the entry under ["metavar"], and is
    missing when there is no entry or its string is empty.  The help
    keyword is built from [str] of the entry under ["help"] (the empty
    string when there is none): alone for a required or boolean default
    (missing when empty), followed by the default text otherwise. *)
Theorem metadata_entries_as_strings
    (cls : PyClass) (group_title : option string) (add_help0 : bool)
    (p : Parser) (f : Field) (d : py_value) :
  get_parser cls group_title add_help0 = Ok p ->
  In f (dataclasses_fields cls) ->
  resolved_default f = Some d ->
  exists a,
    registered_flag p f a
    /\ kwargs_of a !! "metavar"
       = match metadata f !! "metavar" with
         | Some entry =>
             if String.eqb (py_str entry) "" then None
             else Some (KStr (py_str entry))
         | None => None
         end
    /\ kwargs_of a !! "help"
       = let text := match metadata f !! "help" with
                     | Some entry => py_str entry
                     | None => ""
                     end in
         if is_required_arg d || is_bool d
         then if String.eqb text "" then None else Some (KStr text)
         else Some (KStr (text +:+ " default: " +:+ py_str d)).
Proof.
  intros Hp Hin Hd.
  destruct (get_parser_registers _ _ _ _ _ _ Hp Hin Hd)
    as (kw1 & kw2 & H1 & H2 & Hreg).
  exists (mkArgument ["--" +:+ name f] kw2). split; [done|]. simpl. split.
  - rewrite (default_kwargs_frame _ _ _ "metavar" H2) by discriminate.
    rewrite (type_kwargs_frame _ _ _ "metavar" H1) by discriminate.
    rewrite metadata_kwargs_metavar. unfold metadata_str.
    by destruct (metadata f !! "metavar").
  - assert (Hh : kw1 !! "help" = metadata_kwargs f !! "help")
      by (eapply type_kwargs_frame; eauto; discriminate).
    rewrite (default_kwargs_help _ _ _ H2).
    rewrite (kwargs_get_help_metadata f kw1 Hh), Hh.
    rewrite metadata_kwargs_help. unfold metadata_str.
    by destruct (metadata f !! "help").
Qed.

Lemma metadata_entries_as_strings_witness :
  exists a,
    registered_flag parser_WithMetavar ex_m a
    /\ kwargs_of a !! "metavar" = Some (KStr "5")
    /\ kwargs_of a !! "help" = Some (KStr "7 default: 3").
Proof.
  apply (metadata_entries_as_strings WithMetavar None false
           parser_WithMetavar ex_m (VInt 3)).
  - vm_compute. reflexivity.
  - simpl. auto.
  - reflexivity.
Defined.

(** An entry whose string is empty is dropped: [ex_n] has the metavar
    [""]. *)
Example empty_metavar_is_dropped :
  translate_field ex_n
  = Ok [mkArgument ["--n"]
          (<["help" := KStr "7 default: 3"]>
             (<["type" := KType (TClass "int")]> ∅))].
Proof. vm_compute. reflexivity. Qed.

(** ** [str.replace] *)

Lemma startswith_app old s : startswith old (old +:+ s) = true.
Proof.
  induction old as [|a old IH]; simpl; [by destruct s|].
  rewrite Ascii.eqb_refl. exact IH.
Qed.

(** The characters of an occurrence being dropped are dropped whatever they
    are. *)
Lemma replace_from_skip old new t : forall s,
  replace_from old new (String.length t) (t +:+ s) = replace_from old new 0 s.
Proof. induction t as [|a t IH]; intros s; simpl; [done|]. apply IH. Qed.

(** An occurrence at the front is replaced, and the scan goes on behind it. *)
Lemma py_replace_match a old new s :
  py_replace (String a old) new (String a old +:+ s)
  = new +:+ py_replace (String a old) new s.
Proof.
  unfold py_replace. simpl. rewrite Ascii.eqb_refl, startswith_app.
  simpl. rewrite Nat.sub_0_r. by rewrite replace_from_skip.
Qed.

(** A character that starts no occurrence is kept. *)
Lemma py_replace_keep old new c s :
  startswith old (String c s) = false ->
  py_replace old new (String c s) = String c (py_replace old new s).
Proof. intros H. unfold py_replace. simpl replace_from. by rewrite H. Qed.

Lemma startswith_other a old c t :
  Ascii.eqb a c = false -> startswith (String a old) (String c t) = false.
Proof. intros H. simpl. by rewrite H. Qed.

Lemma absent_cons a c s :
  absent a (String c s) = true -> Ascii.eqb a c = false /\ absent a s = true.
Proof.
  simpl. intros H. apply andb_prop in H as [Hc Hs].
  by apply negb_true_iff in Hc.
Qed.

(** A text without the first character of [old] holds no occurrence. *)
Lemma py_replace_absent a old new s :
  absent a s = true -> py_replace (String a old) new s = s.
Proof.
  induction s as [|c s IH]; intros Habs; [done|].
  apply absent_cons in Habs as [Hc Habs].
  rewrite py_replace_keep by (by apply startswith_other).
  by rewrite IH.
Qed.

Lemma append_empty_l s : "" +:+ s = s.
Proof. reflexivity. Qed.

Lemma append_cons c u s : String c u +:+ s = String c (u +:+ s).
Proof. reflexivity. Qed.

Lemma py_replace_one a old new u v :
  absent a u = true -> absent a v = true ->
  py_replace (String a old) new (u +:+ String a old +:+ v) = u +:+ new +:+ v.
Proof.
  intros Hu Hv. induction u as [|c u IH].
  - rewrite !append_empty_l, py_replace_match.
    by rewrite py_replace_absent.
  - apply absent_cons in Hu as [Hc Hu]. rewrite !(append_cons c u).
    rewrite py_replace_keep by (by apply startswith_other).
    by rewrite IH.
Qed.

Lemma absent_app c u v :
  absent c (u +:+ v) = absent c u && absent c v.
Proof.
  induction u as [|x u IH]; simpl; [done|]. rewrite IH. by rewrite andb_assoc.
Qed.

(** The default group name of a class name with one ["Namespace"] or one
    ["Args"] in it is the name without that part. *)
Lemma default_group_name_strips u v :
  absent "N" u = true -> absent "N" v = true ->
  absent "A" u = true -> absent "A" v = true ->
  default_group_name (u +:+ "Namespace" +:+ v) = u +:+ v
  /\ default_group_name (u +:+ "Args" +:+ v) = u +:+ v.
Proof.
  intros HNu HNv HAu HAv. unfold default_group_name. split.
  - rewrite (py_replace_one "N" "amespace" "" u v) by done.
    rewrite append_empty_l. apply py_replace_absent.
    by rewrite absent_app, HAu, HAv.
  - rewrite (py_replace_absent "N" "amespace" "").
    + rewrite (py_replace_one "A" "rgs" "" u v) by done. done.
    + rewrite !absent_app, HNu, HNv. done.
Qed.

(** ** The grouped parser *)

Lemma map_result_Ok {A B : Type} (g : A -> result B) xs : forall ys,
  map_result g xs = Ok ys <-> Forall2 (fun x y => g x = Ok y) xs ys.
Proof.
  induction xs as [|x xs IH]; intros ys; simpl.
  - split; [intros [= <-]; constructor | by inversion 1].
  - split.
    + intros H. apply bind_Ok in H as (y & Hy & H).
      apply bind_Ok in H as (ys' & Hys & H). injection H as <-.
      constructor; [done|]. by apply IH.
    + inversion 1 as [|? y ? ys' Hy Hys]; subst. rewrite Hy. simpl.
      apply IH in Hys. by rewrite Hys.
Qed.

Lemma grouped_Ok cls add_help0 g p :
  get_parser_grouped_by_parents cls add_help0 g = Ok p ->
  exists parent_parsers,
    Forall2
      (fun parent q =>
         get_parser parent (Some (g (class_name parent))) false = Ok q)
      (parent_name_space_classes cls) parent_parsers
    /\ p = mkParser cls false parent_parsers []
             (if add_help0 then [("Help", [help_argument])] else []).
Proof.
  unfold get_parser_grouped_by_parents. intros H.
  apply bind_Ok in H as (pps & Hpps & H).
  apply bind_Ok in H as (taken & _ & H).
  apply bind_Ok in H as (groups & Hgroups & H). injection H as <-.
  exists pps. split; [by apply map_result_Ok in Hpps|].
  destruct add_help0; [|by injection Hgroups as <-].
  rewrite create_action_help in Hgroups. simpl in Hgroups.
  apply bind_Ok in Hgroups as (t & _ & Hgroups). by injection Hgroups as <-.
Qed.

(** C7: the parser returned by [get_parser_grouped_by_parents] has the
    given record as its namespace class, no automatic help flag and no
    argument of its own; its parents are, in order, the parsers built by
    [get_parser] for those direct bases that are subclasses of
    [TypedNamespace], each with one group, labelled by the naming function
    applied to the base's name; its only group is ["Help"] with the one
    standard help flag when help is requested, and it has no group
    otherwise.  The default naming function turns a name holding
    ["Namespace"] or ["Args"] into the name without it. *)
Theorem grouped_parser_structure
    (cls : PyClass) (add_help0 : bool) (g : string -> string) (p : Parser) :
  get_parser_grouped_by_parents cls add_help0 g = Ok p ->
  name_space_class p = cls
  /\ add_help p = false
  /\ own_arguments p = []
  /\ argument_groups p
     = (if add_help0 then [("Help", [help_argument])] else [])
  /\ Forall2
       (fun parent q =>
          get_parser parent (Some (g (class_name parent))) false = Ok q
          /\ add_help q = false
          /\ own_arguments q = []
          /\ argument_groups q = [(g (class_name parent), loop_arguments q)])
       (List.filter issubclass_TypedNamespace (class_bases cls))
       (parents p)
  /\ (forall u v,
        absent "N" u = true -> absent "N" v = true ->
        absent "A" u = true -> absent "A" v = true ->
        default_group_name (u +:+ "Namespace" +:+ v) = u +:+ v
        /\ default_group_name (u +:+ "Args" +:+ v) = u +:+ v).
Proof.
  intros H. apply grouped_Ok in H as (pps & HF & ->). simpl.
  split; [done|]. split; [done|]. split; [done|]. split; [done|].
  split; [|apply default_group_name_strips].
  unfold parent_name_space_classes in HF.
  induction HF as [|parent q ps qs Hq HF IH]; constructor; [|done].
  split; [done|].
  apply get_parser_Ok in Hq as (added & _ & Hloop & _ & _ & Hh & _ & Hg).
  destruct Hg as [Hown Hgroups]. rewrite Hloop. auto.
Qed.

Lemma grouped_parser_structure_witness :
  name_space_class parser_Args = Args
  /\ add_help parser_Args = false
  /\ own_arguments parser_Args = []
  /\ argument_groups parser_Args = [("Help", [help_argument])]
  /\ Forall2
       (fun parent q =>
          get_parser parent (Some (default_group_name (class_name parent)))
            false = Ok q
          /\ add_help q = false
          /\ own_arguments q = []
          /\ argument_groups q
             = [(default_group_name (class_name parent), loop_arguments q)])
       [ArgsA; ArgsB]
       [group_A; group_B]
  /\ (forall u v,
        absent "N" u = true -> absent "N" v = true ->
        absent "A" u = true -> absent "A" v = true ->
        default_group_name (u +:+ "Namespace" +:+ v) = u +:+ v
        /\ default_group_name (u +:+ "Args" +:+ v) = u +:+ v).
Proof.
  apply (grouped_parser_structure Args true default_group_name parser_Args).
  vm_compute. reflexivity.
Defined.

Example grouped_ignores_other_bases :
  parent_name_space_classes Job = [ArgsA]
  /\ get_parser_grouped_by_parents Job false default_group_name
     = Ok (mkParser Job false [group_A] [] []).
Proof. split; vm_compute; reflexivity. Qed.

Example TypedNamespace_group_name :
  default_group_name (class_name TypedNamespaceClass) = "Typed".
Proof. reflexivity. Qed.

Lemma parser_arguments_unfold c h ps own gs :
  parser_arguments (mkParser c h ps own gs)
  = (if h then [help_argument] else [])
    ++ flat_map parser_arguments ps ++ own ++ flat_map snd gs.
Proof. reflexivity. Qed.

(** C9: the fields that [dataclasses.fields] reports for the record given
    to [get_parser_grouped_by_parents] play no part: another field list
    gives the same arguments (or the same exception), and every argument of
    the composed parser is the help flag of the ["Help"] group or an
    argument of the parser built for one of the direct bases that are
    subclasses of [TypedNamespace]. *)
Theorem own_fields_do_not_contribute
    (cname : string) (bases : list PyClass) (fields fields' : list Field)
    (add_help0 : bool) (g : string -> string) :
  result_map parser_arguments
    (get_parser_grouped_by_parents (UserClass cname bases fields) add_help0 g)
  = result_map parser_arguments
      (get_parser_grouped_by_parents (UserClass cname bases fields') add_help0 g)
  /\ forall p a,
       get_parser_grouped_by_parents (UserClass cname bases fields) add_help0 g
       = Ok p ->
       In a (parser_arguments p) ->
       (add_help0 = true /\ a = help_argument)
       \/ exists parent q,
            In parent (List.filter issubclass_TypedNamespace bases)
            /\ get_parser parent (Some (g (class_name parent))) false = Ok q
            /\ In a (parser_arguments q).
Proof.
  split.
  - unfold get_parser_grouped_by_parents, parent_name_space_classes. simpl.
    destruct (map_result _ _) as [pps|e]; simpl; [|done].
    destruct (add_actions _ _) as [taken|e]; simpl; [|done].
    destruct add_help0; simpl; [|done].
    rewrite create_action_help. simpl.
    destruct (check_conflict _ _); done.
  - intros p a Hp Ha. apply grouped_Ok in Hp as (pps & HF & ->).
    rewrite parser_arguments_unfold in Ha. simpl in Ha.
    apply in_app_or in Ha as [Ha | Ha].
    + right. unfold parent_name_space_classes in HF. simpl in HF.
      apply in_flat_map in Ha as (q & Hq & Ha).
      induction HF as [|parent q' ps qs Hq' HF IH]; [destruct Hq|].
      destruct Hq as [-> | Hq].
      * exists parent, q. simpl. auto.
      * destruct (IH Hq) as (parent' & q'' & Hin & Hget & Hina).
        exists parent', q''. simpl. auto.
    + left. destruct add_help0; simpl in Ha; [|destruct Ha].
      destruct Ha as [<- | []]. auto.
Qed.

Lemma own_fields_do_not_contribute_witness :
  (add_help parser_Args = true /\ flag_d = help_argument)
  \/ exists parent q,
       In parent [ArgsA; ArgsB]
       /\ get_parser parent (Some (default_group_name (class_name parent)))
            false = Ok q
       /\ In flag_d (parser_arguments q).
Proof.
  destruct (own_fields_do_not_contribute "Args" [ArgsA; ArgsB]
              [ex_b; ex_d; ex_a; ex_c] [] true default_group_name)
    as [_ H].
  destruct (H parser_Args flag_d) as [[_ Habs] | Hparent].
  - vm_compute. reflexivity.
  - vm_compute. auto 10.
  - discriminate Habs.
  - right. exact Hparent.
Defined.

(** A field that only the record itself declares leaves no trace in the
    composed parser: [Job] reports a field [b], its bases do not. *)
Example Job_own_field_is_not_a_flag :
  In ex_b (dataclasses_fields Job)
  /\ result_map parser_arguments
       (get_parser_grouped_by_parents Job true default_group_name)
     = Ok [flag_a; flag_c; help_argument].
Proof. split; [simpl; auto | vm_compute; reflexivity]. Qed.

(** ** Parsing no token *)

Lemma substring_full s : String.substring 0 (String.length s) s = s.
Proof. induction s as [|c s IH]; simpl; [done|]. by rewrite IH. Qed.

Lemma dest_of_flag n kwargs : dest_of (mkArgument ["--" +:+ n] kwargs) = n.
Proof.
  unfold dest_of, strip_marker. simpl. rewrite Nat.sub_0_r.
  apply substring_full.
Qed.

Lemma engine_default_help : engine_default help_argument = None.
Proof. reflexivity. Qed.

Lemma is_required_help : is_required help_argument = false.
Proof. reflexivity. Qed.

(** A flag whose attribute the namespace already has, or which has no
    default of its own, leaves the namespace as it is. *)
Lemma add_defaults_id flags : forall ns : gmap string py_value,
  Forall (fun a => engine_default a = None \/ is_Some (ns !! dest_of a)) flags ->
  add_defaults flags ns = ns.
Proof.
  induction flags as [|a flags IH]; intros ns HF; simpl; [done|].
  apply Forall_cons in HF as [Ha HF].
  destruct Ha as [Ha | [v Ha]].
  - rewrite Ha. destruct (ns !! dest_of a); by apply IH.
  - rewrite Ha. by apply IH.
Qed.

Lemma missing_required_none flags seen :
  Forall (fun a => is_required a = false) flags ->
  missing_required flags seen = false.
Proof.
  unfold missing_required. induction 1 as [|a flags Ha HF IH]; simpl; [done|].
  by rewrite Ha, IH.
Qed.

(** With no token, no required flag and every attribute in place, the
    engine hands the instance back unchanged. *)
Lemma engine_parse_nothing call_type p inst :
  Forall (fun a => (engine_default a = None
                    \/ is_Some (attributes inst !! dest_of a))
                   /\ is_required a = false)
    (parser_arguments p) ->
  engine_parse_args call_type p [] inst = Parsed inst.
Proof.
  intros HF. unfold engine_parse_args.
  rewrite add_defaults_id by (eapply Forall_impl; [exact HF|]; by intros a [? ?]).
  simpl. rewrite missing_required_none
    by (eapply Forall_impl; [exact HF|]; by intros a [? ?]).
  by destruct inst.
Qed.

Lemma concrete_default_resolves f :
  has_concrete_default f = true ->
  exists d, resolve_default f = Ok d /\ is_required_arg d = false.
Proof.
  unfold has_concrete_default, resolve_default, call_default_factory.
  destruct (default_factory f) as [|[v|e]]; [| |discriminate].
  - intros H. exists (default f). split; [done|].
    by destruct (default f).
  - intros H. exists v. split; [done|]. by apply negb_true_iff in H.
Qed.

(** What a field of plain type with a concrete default contributes: the
    help flag, or one flag that writes the field's own attribute and is not
    required. *)
Lemma plain_field_flag f added :
  has_plain_type f = true ->
  has_concrete_default f = true ->
  translate_field f = Ok added ->
  Forall (fun a => (engine_default a = None \/ dest_of a = name f)
                   /\ is_required a = false) added.
Proof.
  intros Hplain Hconc Hf. unfold has_plain_type in Hplain.
  destruct (get_origin (type f)) as [o|] eqn:Ho; [discriminate|].
  destruct (is_help_alias (name f)) eqn:Ha.
  - rewrite translate_field_alias in Hf by done. injection Hf as <-.
    constructor; [|constructor]. split; [by left | done].
  - destruct (concrete_default_resolves f Hconc) as (d & Hd & Hreq).
    assert (Hres : resolved_default f = Some d).
    { unfold resolved_default. by rewrite Ha, Ho, Hd. }
    destruct (translate_field_resolved _ _ _ Hres Hf)
      as (kw1 & kw2 & H1 & H2 & ->).
    constructor; [|constructor]. split.
    + right. apply dest_of_flag.
    + unfold is_required. simpl.
      rewrite (default_kwargs_required_iff _ _ _ H2), Hreq; [done|].
      rewrite (type_kwargs_frame _ _ _ "required" H1) by discriminate.
      apply metadata_kwargs_other; discriminate.
Qed.

Lemma plain_fields_flags fs per :
  Forall (fun f => has_plain_type f = true /\ has_concrete_default f = true) fs ->
  Forall2 (fun f added => translate_field f = Ok added) fs per ->
  Forall (fun a => (engine_default a = None
                    \/ exists f, In f fs /\ dest_of a = name f)
                   /\ is_required a = false) (List.concat per).
Proof.
  intros Hfs HF. induction HF as [|f added fs per Hf HF IH]; simpl;
    [constructor|].
  apply Forall_cons in Hfs as [[Hp Hc] Hfs]. apply Forall_app. split.
  - eapply Forall_impl; [exact (plain_field_flag f added Hp Hc Hf)|].
    intros a [[Hn | Hdest] Hr]; (split; [|done]); [by left|].
    right. exists f. auto.
  - eapply Forall_impl; [exact (IH Hfs)|].
    intros a [[Hn | (g & Hg & Hdest)] Hr]; (split; [|done]); [by left|].
    right. exists g. auto.
Qed.

(** C8: for every record whose fields all have a plain (scalar or boolean)
    declared type and a concrete default, the parser that [get_parser]
    returns, invoked on the empty token sequence with no instance given,
    returns exactly the instance that the no-argument construction of the
    record builds from the declared defaults. *)
Theorem parsing_nothing_gives_defaults
    (call_type : py_type -> string -> option py_value)
    (instantiate : PyClass -> result Instance)
    (cls : PyClass) (group_title : option string) (add_help0 : bool)
    (p : Parser) (inst : Instance) :
  get_parser cls group_title add_help0 = Ok p ->
  (forall f, In f (dataclasses_fields cls) ->
             has_plain_type f = true /\ has_concrete_default f = true) ->
  instantiate cls = Ok inst ->
  built_from_defaults cls inst ->
  parse_args call_type instantiate p [] None = Ok (Parsed inst).
Proof.
  intros Hp Hfields Hinst Hbuilt. apply List.Forall_forall in Hfields.
  apply get_parser_Ok in Hp as (added & Hl & _ & Hargs & Hcls & _).
  apply translate_fields_Ok in Hl as (per & taken' & HF & -> & _).
  simpl in Hargs.
  unfold parse_args. rewrite Hcls, Hinst. simpl. f_equal.
  apply engine_parse_nothing. rewrite Hargs. apply Forall_app. split.
  - destruct add_help0; [|constructor].
    constructor; [|constructor]. split; [by left | done].
  - eapply Forall_impl; [exact (plain_fields_flags _ _ Hfields HF)|]. simpl.
    intros a [[Hn | (f & Hf & Hdest)] Hr]; (split; [|done]); [by left|].
    right. rewrite Hdest. destruct (Hbuilt f Hf) as (d & _ & Hd). eauto.
Qed.

Lemma parsing_nothing_gives_defaults_witness :
  parse_args builtin_call (fun _ => Ok Flat_defaults)
    (mkParser Flat false [] [flag_a; flag_b] []) [] None
  = Ok (Parsed Flat_defaults).
Proof.
  apply (parsing_nothing_gives_defaults builtin_call
           (fun _ => Ok Flat_defaults) Flat None false
           (mkParser Flat false [] [flag_a; flag_b] []) Flat_defaults).
  - vm_compute. reflexivity.
  - intros f [<- | [<- | []]]; split; reflexivity.
  - reflexivity.
  - intros f [<- | [<- | []]]; eexists; split; reflexivity.
Defined.

(** The scenario of the module's docstring: [--c 2 3 --d hello] on the
    grouped parser of [Args]; and the required [--d] missing. *)
Example Args_scenario :
  parse_args builtin_call (fun _ => Ok Args_defaults) parser_Args
    ["--c"; "2"; "3"; "--d"; "hello"] None
  = Ok (Parsed
          (mkInstance Args
             (<["a" := VInt 1]>
                (<["c" := VList [VInt 2; VInt 3]]>
                   (<["b" := VBool false]> (<["d" := VStr "hello"]> ∅))))))
  /\ parse_args builtin_call (fun _ => Ok Args_defaults) parser_Args [] None
     = Ok (UsageError "the following arguments are required").
Proof. split; vm_compute; reflexivity. Qed.

(** ** Other failures of a factory *)

(** An exception of the factory other than [TypeError] is not caught: it
    leaves the loop body as it is. *)
Lemma factory_exception_escapes f e :
  is_help_alias (name f) = false ->
  is_ClassVar (get_origin (type f)) = false ->
  call_default_factory f = Raises e ->
  e <> TypeError ->
  translate_field f = Raise e.
Proof.
  intros Ha Hc Hcall Hne. rewrite translate_field_stages by done.
  unfold resolve_default. rewrite Hcall. by destruct e.
Qed.

(** * Further properties of the loop *)

Lemma registered_kwargs cls group_title add_help0 p f d :
  get_parser cls group_title add_help0 = Ok p ->
  In f (dataclasses_fields cls) ->
  resolved_default f = Some d ->
  exists a kw1,
    registered_flag p f a
    /\ type_kwargs (type f) (metadata_kwargs f) = Ok kw1
    /\ default_kwargs d kw1 = Ok (kwargs_of a).
Proof.
  intros Hp Hin Hd.
  destruct (get_parser_registers _ _ _ _ _ _ Hp Hin Hd)
    as (kw1 & kw2 & H1 & H2 & Hreg).
  exists (mkArgument ["--" +:+ name f] kw2), kw1. auto.
Qed.

Lemma type_kwargs_value_type t kwargs kw1 :
  type_kwargs t kwargs = Ok kw1 -> kw1 !! "type" = Some (KType (value_type t)).
Proof.
  unfold type_kwargs, value_type.
  destruct (get_origin t) as [o|].
  - destruct (is_list_origin o); [|discriminate].
    destruct (get_args t) as [|inner [|]]; try discriminate.
    intros [= <-]. rewrite lookup_insert_ne by discriminate.
    apply lookup_insert_eq.
  - intros [= <-]. apply lookup_insert_eq.
Qed.

Lemma default_kwargs_no_action d kw1 kw2 :
  default_kwargs d kw1 = Ok kw2 ->
  is_bool d = false ->
  kw2 !! "action" = kw1 !! "action".
Proof.
  intros H Hb. unfold default_kwargs in H.
  destruct d; try discriminate; simpl in H; injection H as <-;
    by rewrite lookup_insert_ne by discriminate.
Qed.

(** X1 (lines 188-194): the flag of a field is marked [required=True]
    exactly when the resolved default is the class [REQUIRED_ARG]; any
    other default, the [MISSING] sentinel of a field declared without
    default included, leaves the flag optional. *)
Theorem required_exactly_for_marker
    (cls : PyClass) (group_title : option string) (add_help0 : bool)
    (p : Parser) (f : Field) (d : py_value) :
  get_parser cls group_title add_help0 = Ok p ->
  In f (dataclasses_fields cls) ->
  resolved_default f = Some d ->
  exists a,
    registered_flag p f a
    /\ kwargs_of a !! "required"
       = if is_required_arg d then Some (KBool true) else None.
Proof.
  intros Hp Hin Hd.
  destruct (registered_kwargs _ _ _ _ _ _ Hp Hin Hd) as (a & kw1 & Hreg & H1 & H2).
  exists a. split; [done|].
  apply (default_kwargs_required_iff _ _ _ H2).
  rewrite (type_kwargs_frame _ _ _ "required" H1) by discriminate.
  apply metadata_kwargs_other; discriminate.
Qed.

Lemma required_exactly_for_marker_witness :
  (exists a, registered_flag parser_ArgsB ex_d a
             /\ kwargs_of a !! "required" = Some (KBool true))
  /\ (exists a, registered_flag parser_NoDefault ex_nodefault a
                /\ kwargs_of a !! "required" = None).
Proof.
  split.
  - apply (required_exactly_for_marker ArgsB None false parser_ArgsB ex_d
             VRequiredArg).
    + vm_compute. reflexivity.
    + simpl. auto.
    + reflexivity.
  - apply (required_exactly_for_marker NoDefault None false parser_NoDefault
             ex_nodefault VMissing).
    + vm_compute. reflexivity.
    + simpl. auto.
    + reflexivity.
Defined.

(** X2 (lines 174-194): for every resolved default that is not a boolean,
    the required marker included, the flag keeps the value type of the type
    stage (the declared type when plain, the inner type of a list shape),
    has no [action] keyword, and has no arity when the declared type is
    plain. *)
Theorem non_boolean_flag_takes_typed_values
    (cls : PyClass) (group_title : option string) (add_help0 : bool)
    (p : Parser) (f : Field) (d : py_value) :
  get_parser cls group_title add_help0 = Ok p ->
  In f (dataclasses_fields cls) ->
  resolved_default f = Some d ->
  is_bool d = false ->
  exists a,
    registered_flag p f a
    /\ kwargs_of a !! "type" = Some (KType (value_type (type f)))
    /\ kwargs_of a !! "action" = None
    /\ (get_origin (type f) = None -> kwargs_of a !! "nargs" = None).
Proof.
  intros Hp Hin Hd Hb.
  destruct (registered_kwargs _ _ _ _ _ _ Hp Hin Hd) as (a & kw1 & Hreg & H1 & H2).
  exists a. split; [done|]. split; [|split].
  - rewrite (default_kwargs_type _ _ _ H2), Hb.
    by eapply type_kwargs_value_type.
  - rewrite (default_kwargs_no_action _ _ _ H2 Hb).
    rewrite (type_kwargs_frame _ _ _ "action" H1) by discriminate.
    apply metadata_kwargs_other; discriminate.
  - intros Ho. by eapply plain_type_has_no_arity.
Qed.

Lemma non_boolean_flag_takes_typed_values_witness :
  exists a,
    registered_flag parser_ArgsB ex_d a
    /\ kwargs_of a !! "type" = Some (KType (TClass "str"))
    /\ kwargs_of a !! "action" = None
    /\ kwargs_of a !! "nargs" = None.
Proof.
  destruct (non_boolean_flag_takes_typed_values ArgsB None false parser_ArgsB
              ex_d VRequiredArg)
    as (a & Hreg & Htype & Haction & Hnargs).
  - vm_compute. reflexivity.
  - simpl. auto.
  - reflexivity.
  - reflexivity.
  - exists a. split; [exact Hreg|]. split; [exact Htype|].
    split; [exact Haction|]. apply Hnargs. reflexivity.
Defined.

(** X3 (lines 165-196): the keyword arguments of a field's flag are among
    [help], [metavar], [type], [nargs], [required] and [action]; in
    particular the loop never hands the engine a [default], so the value of
    an absent flag can only come from the instance. *)
Theorem only_known_keywords
    (cls : PyClass) (group_title : option string) (add_help0 : bool)
    (p : Parser) (f : Field) (d : py_value) :
  get_parser cls group_title add_help0 = Ok p ->
  In f (dataclasses_fields cls) ->
  resolved_default f = Some d ->
  exists a,
    registered_flag p f a
    /\ (forall key, ~ In key known_keywords -> kwargs_of a !! key = None)
    /\ kwargs_of a !! "default" = None.
Proof.
  intros Hp Hin Hd.
  destruct (registered_kwargs _ _ _ _ _ _ Hp Hin Hd) as (a & kw1 & Hreg & H1 & H2).
  exists a. split; [done|].
  assert (Hall : forall key, ~ In key known_keywords -> kwargs_of a !! key = None).
  { intros key Hkey. unfold known_keywords in Hkey. simpl in Hkey.
    rewrite (default_kwargs_frame _ _ _ key H2) by (intros ->; tauto).
    rewrite (type_kwargs_frame _ _ _ key H1) by (intros ->; tauto).
    apply metadata_kwargs_other; intros ->; tauto. }
  split; [done|]. apply Hall. unfold known_keywords. simpl.
  intros [H|[H|[H|[H|[H|[H|[]]]]]]]; discriminate.
Qed.

Lemma only_known_keywords_witness :
  exists a,
    registered_flag group_A ex_c a
    /\ (forall key, ~ In key known_keywords -> kwargs_of a !! key = None)
    /\ kwargs_of a !! "default" = None.
Proof.
  apply (only_known_keywords ArgsA (Some "A") false group_A ex_c
           (VList [VInt 1])).
  - vm_compute. reflexivity.
  - simpl. auto.
  - reflexivity.
Defined.

(** ** Metadata the loop does not read *)

Lemma add_metadata_str key v f key' :
  key <> key' -> metadata_str (add_metadata key v f) key' = metadata_str f key'.
Proof.
  intros Hne. unfold metadata_str, add_metadata. simpl.
  by rewrite lookup_insert_ne.
Qed.

Lemma add_metadata_translate key v f :
  key <> "help" -> key <> "metavar" ->
  translate_field (add_metadata key v f) = translate_field f.
Proof.
  intros Hh Hm. unfold translate_field, metadata_kwargs.
  rewrite !add_metadata_str by done. reflexivity.
Qed.

Lemma add_metadata_translate_fields key v fs :
  key <> "help" -> key <> "metavar" ->
  forall taken group,
    translate_fields (map (add_metadata key v) fs) taken group
    = translate_fields fs taken group.
Proof.
  intros Hh Hm. induction fs as [|f fs IH]; intros taken group; simpl; [done|].
  rewrite add_metadata_translate by done.
  destruct (translate_field f) as [added|e]; simpl; [|done].
  destruct (add_actions taken added); simpl; [apply IH | done].
Qed.

(** X4 (lines 165-172): the loop reads the metadata keys [help] and
    [metavar] and no other: an entry under any other key, on any fields of
    the record, changes neither the arguments of the parser nor the
    exception raised. *)
Theorem other_metadata_is_ignored
    (cname : string) (bases : list PyClass) (fields : list Field)
    (group_title : option string) (add_help0 : bool)
    (key : string) (v : py_value) :
  key <> "help" -> key <> "metavar" ->
  result_map parser_arguments
    (get_parser (UserClass cname bases (map (add_metadata key v) fields))
       group_title add_help0)
  = result_map parser_arguments
      (get_parser (UserClass cname bases fields) group_title add_help0).
Proof.
  intros Hh Hm. unfold get_parser. simpl.
  rewrite add_metadata_translate_fields by done.
  destruct (translate_fields fields _ []) as [added|e]; simpl; [|done].
  by destruct group_title.
Qed.

Lemma other_metadata_is_ignored_witness :
  result_map parser_arguments
    (get_parser
       (UserClass "ArgsA" [TypedNamespaceClass]
          (map (add_metadata "choices" (VList [VInt 1; VInt 2])) [ex_a; ex_c]))
       None false)
  = Ok [flag_a; flag_c].
Proof.
  rewrite (other_metadata_is_ignored "ArgsA" [TypedNamespaceClass]
             [ex_a; ex_c] None false "choices" (VList [VInt 1; VInt 2]));
    [vm_compute; reflexivity | discriminate | discriminate].
Defined.

(** ** When the loop ends, and how it fails *)





















Example boolean_with_metavar_is_refused :
  get_parser BoolMetavar None false = Raise TypeError.
Proof. vm_compute. reflexivity. Qed.

Example text_annotation_is_refused :
  get_parser TextAnnotation None false = Raise ValueError.
Proof. vm_compute. reflexivity. Qed.

Example both_aliases_conflict :
  get_parser BothAliases None false = Raise ArgumentError.
Proof. vm_compute. reflexivity. Qed.

Example alias_conflicts_with_automatic_help :
  get_parser Mixed None true = Raise ArgumentError.
Proof. vm_compute. reflexivity. Qed.

(** ** Option strings *)









(** * Further properties of the grouped parser *)

(** X9 (lines 208-220): for a record whose only base is [TypedNamespace]
    itself, the grouped parser holds none of the record's flags, whatever
    its fields: its one parent is the parser of [TypedNamespace], with an
    empty group named after it, and the only flag is the one of the
    ["Help"] group. *)
Theorem grouped_parser_of_direct_subclass
    (cname : string) (fields : list Field) (add_help0 : bool)
    (g : string -> string) :
  get_parser_grouped_by_parents
    (UserClass cname [TypedNamespaceClass] fields) add_help0 g
  = Ok (mkParser (UserClass cname [TypedNamespaceClass] fields) false
          [mkParser TypedNamespaceClass false [] []
             [(g "TypedNamespace", [])]]
          []
          (if add_help0 then [("Help", [help_argument])] else []))
  /\ result_map parser_arguments
       (get_parser_grouped_by_parents
          (UserClass cname [TypedNamespaceClass] fields) add_help0 g)
     = Ok (if add_help0 then [help_argument] else []).
Proof. destruct add_help0; split; vm_compute; reflexivity. Qed.





Example bases_with_a_common_flag_are_refused :
  get_parser_grouped_by_parents Twice false default_group_name
  = Raise ArgumentError.
Proof. vm_compute. reflexivity. Qed.

(** X11 (lines 211-218): the arguments of the grouped parser are the flags
    of the direct [TypedNamespace] bases, base after base in the order of
    [__bases__] and field after field within a base, followed by the help
    flag when one is requested; the naming function has no part in them. *)
Theorem grouped_parser_arguments
    (cls : PyClass) (add_help0 : bool) (g : string -> string) (p : Parser) :
  get_parser_grouped_by_parents cls add_help0 g = Ok p ->
  parser_arguments p
  = flat_map class_flags (parent_name_space_classes cls)
    ++ (if add_help0 then [help_argument] else []).
Proof.
  intros Hp. apply grouped_Ok in Hp as (pps & HF & ->).
  rewrite parser_arguments_unfold. simpl. f_equal.
  - induction HF as [|c q cs qs Hq HF IH]; simpl; [done|].
    rewrite IH. f_equal.
    apply get_parser_Ok in Hq as (added & Hl & _ & Hargs & _).
    simpl in Hl. rewrite Hargs. unfold class_flags. by rewrite Hl.
  - by destruct add_help0.
Qed.

Lemma grouped_parser_arguments_witness :
  parser_arguments parser_Args = [flag_a; flag_c; flag_b; flag_d; help_argument].
Proof.
  rewrite (grouped_parser_arguments Args true default_group_name parser_Args);
    vm_compute; reflexivity.
Defined.

(** ** The default group name *)

Lemma replace_from_length old s : forall skip,
  String.length (replace_from old "" skip s) <= String.length s.
Proof.
  induction s as [|c s IH]; intros skip; simpl; [lia|].
  destruct skip as [|k].
  - destruct (startswith old (String c s)).
    + rewrite append_empty_l. specialize (IH (String.length old - 1)). lia.
    + simpl. specialize (IH 0). lia.
  - specialize (IH k). lia.
Qed.

(** X12 (lines 204-206): the default group name is never longer than the
    class name; a class name without the letters [N] and [A] is its own
    group name. *)
Theorem default_group_name_bounds (pname : string) :
  String.length (default_group_name pname) <= String.length pname
  /\ (absent "N" pname = true -> absent "A" pname = true ->
      default_group_name pname = pname).
Proof.
  unfold default_group_name, py_replace. split.
  - pose proof (replace_from_length "Args" (replace_from "Namespace" "" 0 pname) 0).
    pose proof (replace_from_length "Namespace" pname 0). lia.
  - intros HN HA.
    pose proof (py_replace_absent "N" "amespace" "" pname HN) as H1.
    unfold py_replace in H1. rewrite H1.
    exact (py_replace_absent "A" "rgs" "" pname HA).
Qed.

Lemma default_group_name_bounds_witness :
  String.length (default_group_name "Options") <= 7
  /\ default_group_name "Options" = "Options".
Proof.
  destruct (default_group_name_bounds "Options") as [Hlen Hid].
  split; [exact Hlen | apply Hid; reflexivity].
Defined.

